(** * Pod template derivation of the WordPress operator

    A shallow embedding of [pkg/internal/wordpress/pod_template.go]: the
    functions that turn a [Wordpress] resource into the pod template of the
    web deployment and of the wp-cli jobs, and the properties of the
    environment, volume, mount, init-container and probe derivations.

    Conventions of the embedding:
    - Go slices are lists and Go [map[string]string] values are [gmap]s; a nil
      slice or map and an empty one are identified, as [len] and [range] do.
    - A Go pointer field is an [option]; dereferencing a nil pointer panics,
      which is the [None] of the [option] monad in the functions that
      dereference without a check of their own.
    - [int32] and [int64] fields are [Z]. *)

From Stdlib Require Import ZArith Ascii String DecimalString.
From stdpp Require Import base option list strings gmap fin_maps.

Local Open Scope string_scope.
Local Open Scope list_scope.

(** ** The parts of the Go standard library the file calls *)

Module Go.

Definition slash : ascii := "/"%char.
Definition dot : ascii := "."%char.

  (** The double quote character, for the shell scripts. *)
Definition dq : string := String (ascii_of_nat 34) EmptyString.

  (** [strings.Join]. *)
Definition strings_Join (elems : list string) (sep : string) : string :=
    String.concat sep elems.

  (** [fmt.Sprintf("%s://%s", a, b)]. *)
Definition sprintf_url (a b : string) : string := a +:+ "://" +:+ b.

  (** The inner loop of the [..] case of [path.Clean]: [out.w--] and then
      [for out.w > dotdot && out.index(out.w) != '/' { out.w-- }].  The
      buffer is kept reversed, so its head is the byte at index [w - 1]. *)
Fixpoint backtrack (rout : list ascii) (dotdot : nat) : list ascii :=
    match rout with
    | [] => []
    | c :: rest =>
        if (dotdot <? length rest)%nat && negb (Ascii.eqb c slash)
        then backtrack rest dotdot
        else rest
    end.

  (** Is the read index at the end of the path or at a slash? *)
Definition at_sep (p : list ascii) : bool :=
    match p with
    | [] => true
    | c :: _ => Ascii.eqb c slash
    end.

  (** The main loop of [path.Clean] over the unread bytes [p], the reversed
      output buffer [rout] and the index [dotdot].  [copying] is set while
      the copy loop of the default case runs; the slash that ends it is the
      empty path element the next iteration of the Go loop skips. *)
Fixpoint clean_loop (rooted copying : bool) (p rout : list ascii)
      (dotdot : nat) : list ascii :=
    match p with
    | [] => rout
    | c :: p' =>
        if copying then
          if Ascii.eqb c slash then clean_loop rooted false p' rout dotdot
          else clean_loop rooted true p' (c :: rout) dotdot
        else if Ascii.eqb c slash then
          clean_loop rooted false p' rout dotdot
        else if Ascii.eqb c dot && at_sep p' then
          clean_loop rooted false p' rout dotdot
        else
          let real :=
            let w := length rout in
            let rout' :=
              if (rooted && negb (w =? 1)%nat) || (negb rooted && negb (w =? 0)%nat)
              then slash :: rout else rout in
            clean_loop rooted true p' (c :: rout') dotdot in
          match p' with
          | c' :: p'' =>
              if Ascii.eqb c dot && Ascii.eqb c' dot && at_sep p'' then
                if (dotdot <? length rout)%nat then
                  clean_loop rooted false p'' (backtrack rout dotdot) dotdot
                else if negb rooted then
                  let rout1 := if (0 <? length rout)%nat then slash :: rout else rout in
                  let rout2 := dot :: dot :: rout1 in
                  clean_loop rooted false p'' rout2 (length rout2)
                else clean_loop rooted false p'' rout dotdot
              else real
          | [] => real
          end
    end.

  (** [path.Clean]. *)
Definition path_Clean (path : string) : string :=
    match list_ascii_of_string path with
    | [] => "."
    | c :: p' =>
        let rooted := Ascii.eqb c slash in
        let rout :=
          if rooted then clean_loop true false p' [slash] 1
          else clean_loop false false (c :: p') [] 0 in
        match rout with
        | [] => "."
        | _ => string_of_list_ascii (rev rout)
        end
    end.

  (** The loop of [path.Join] that builds the buffer: an element is appended
      when the buffer is not empty or the element is not, after a slash when
      the buffer is not empty. *)
Fixpoint join_buf (buf : string) (elem : list string) : string :=
    match elem with
    | [] => buf
    | e :: rest =>
        if negb (String.eqb buf "") || negb (String.eqb e "") then
          join_buf ((if negb (String.eqb buf "") then buf +:+ "/" else buf) +:+ e) rest
        else join_buf buf rest
    end.

  (** [path.Join]. *)
Definition path_Join (elem : list string) : string :=
    if (foldr (fun e n => String.length e + n) 0 elem =? 0)%nat then ""
    else path_Clean (join_buf "" elem).

(** [p != nil] for a pointer [p]. *)
Definition notnil {A : Type} (p : option A) : bool :=
  match p with
  | Some _ => true
  | None => false
  end.

(** The line feed, and the text of a list of lines, each ended by one. *)
Definition nl : string := String (ascii_of_nat 10) EmptyString.

Definition unlines (ls : list string) : string :=
  foldr (fun l acc => l +:+ nl +:+ acc) "" ls.

(** [fmt.Sprintf("%d", n)]. *)
Definition sprintf_d (n : Z) : string := NilZero.string_of_int (Z.to_int n).

End Go.

(** ** The Kubernetes API types the file builds ([k8s.io/api/core/v1])

    Each struct is a record in a module of its name, with the fields this
    package reads or writes. *)

(** [resource.Quantity], in its canonical string form. *)
Definition Quantity : Type := string.

(** [intstr.IntOrString]. *)
Inductive IntOrString : Type :=
  | IntVal (i : Z)
  | StrVal (s : string).

(** [intstr.FromInt]. *)
Definition intstr_FromInt (i : Z) : IntOrString := IntVal i.

Module ObjectFieldSelector.
Record t : Type := { FieldPath : string }.
End ObjectFieldSelector.

Module KeySelector.
  (** [SecretKeySelector] and [ConfigMapKeySelector]. *)
Record t : Type := { Name : string; Key : string }.
End KeySelector.

Module EnvVarSource.
Record t : Type := {
    FieldRef : option ObjectFieldSelector.t;
    ConfigMapKeyRef : option KeySelector.t;
    SecretKeyRef : option KeySelector.t }.
End EnvVarSource.

Module EnvVar.
Record t : Type := {
    Name : string;
    Value : string;
    ValueFrom : option EnvVarSource.t }.

  (** [corev1.EnvVar{Name: n, Value: v}]. *)
Definition lit (n v : string) : t :=
    {| Name := n; Value := v; ValueFrom := None |}.

  (** [_env := env.DeepCopy(); _env.Name = n]. *)
Definition rename (n : string) (e : t) : t :=
    {| Name := n; Value := Value e; ValueFrom := ValueFrom e |}.
End EnvVar.

Module SecretEnvSource.
Record t : Type := { Name : string; Optional : option bool }.
End SecretEnvSource.

Module EnvFromSource.
Record t : Type := {
    Prefix : string;
    ConfigMapRef : option SecretEnvSource.t;
    SecretRef : option SecretEnvSource.t }.
End EnvFromSource.

Module VolumeMount.
Record t : Type := {
    Name : string;
    ReadOnly : bool;
    MountPath : string;
    SubPath : string }.
End VolumeMount.

Module EmptyDirVolumeSource.
Record t : Type := { Medium : string; SizeLimit : option Quantity }.

  (** [&corev1.EmptyDirVolumeSource{}]. *)
Definition zero : t := {| Medium := ""; SizeLimit := None |}.
End EmptyDirVolumeSource.

Module PersistentVolumeClaimVolumeSource.
Record t : Type := { ClaimName : string; ReadOnly : bool }.
End PersistentVolumeClaimVolumeSource.

Module HostPathVolumeSource.
Record t : Type := { Path : string; Type_ : option string }.
End HostPathVolumeSource.

Module VolumeSource.
Record t : Type := {
    HostPath : option HostPathVolumeSource.t;
    EmptyDir : option EmptyDirVolumeSource.t;
    PersistentVolumeClaim : option PersistentVolumeClaimVolumeSource.t }.
End VolumeSource.

Module Volume.
Record t : Type := { Name : string; Source : VolumeSource.t }.

  (** The volume is backed by ephemeral (emptyDir) storage and by nothing
      else. *)
Definition is_ephemeral (v : t) : bool :=
    match VolumeSource.EmptyDir (Source v),
          VolumeSource.HostPath (Source v),
          VolumeSource.PersistentVolumeClaim (Source v) with
    | Some _, None, None => true
    | _, _, _ => false
    end.
End Volume.

Module SecurityContext.
Record t : Type := { RunAsUser : option Z; ProcMount : option string }.
End SecurityContext.

Module PodSecurityContext.
Record t : Type := { FSGroup : option Z }.
End PodSecurityContext.

Module HTTPHeader.
Record t : Type := { Name : string; Value : string }.
End HTTPHeader.

Module HTTPGetAction.
Record t : Type := {
    Path : string;
    Port : IntOrString;
    Host : string;
    Scheme : string;
    HTTPHeaders : list HTTPHeader.t }.
End HTTPGetAction.

Module ExecAction.
Record t : Type := { Command : list string }.
End ExecAction.

Module TCPSocketAction.
Record t : Type := { Port : IntOrString; Host : string }.
End TCPSocketAction.

Module Handler.
Record t : Type := {
    Exec : option ExecAction.t;
    HTTPGet : option HTTPGetAction.t;
    TCPSocket : option TCPSocketAction.t }.
End Handler.

Module Probe.
Record t : Type := {
    Handler_ : Handler.t;
    InitialDelaySeconds : Z;
    TimeoutSeconds : Z;
    PeriodSeconds : Z;
    SuccessThreshold : Z;
    FailureThreshold : Z }.
End Probe.

Module Lifecycle.
Record t : Type := {
    PostStart : option Handler.t;
    PreStop : option Handler.t }.
End Lifecycle.

Module ContainerPort.
Record t : Type := { Name : string; ContainerPort_ : Z }.
End ContainerPort.

Module ResourceRequirements.
Record t : Type := {
    Limits : gmap string Quantity;
    Requests : gmap string Quantity }.

(** The zero value, [corev1.ResourceRequirements{}]. *)
Definition zero : t := {| Limits := ∅; Requests := ∅ |}.
End ResourceRequirements.

Module Container.
Record t : Type := {
    Name : string;
    Image : string;
    Command : list string;
    Args : list string;
    Ports : list ContainerPort.t;
    EnvFrom : list EnvFromSource.t;
    Env : list EnvVar.t;
    Resources : ResourceRequirements.t;
    VolumeMounts : list VolumeMount.t;
    LivenessProbe : option Probe.t;
    ReadinessProbe : option Probe.t;
    Lifecycle_ : option Lifecycle.t;
    ImagePullPolicy : string;
    SecurityContext_ : option SecurityContext.t }.
End Container.

Module LocalObjectReference.
Record t : Type := { Name : string }.
End LocalObjectReference.

Module Toleration.
Record t : Type := {
    Key : string; Operator : string; Value : string; Effect : string }.
End Toleration.

Module Affinity.
  (** Passed through untouched; kept as the required node labels. *)
Record t : Type := { RequiredNodeLabels : gmap string string }.
End Affinity.

Module PodSpec.
Record t : Type := {
    Volumes : list Volume.t;
    InitContainers : list Container.t;
    Containers : list Container.t;
    RestartPolicy : string;
    NodeSelector : gmap string string;
    ServiceAccountName : string;
    SecurityContext_ : option PodSecurityContext.t;
    ImagePullSecrets : list LocalObjectReference.t;
    Affinity_ : option Affinity.t;
    Tolerations : list Toleration.t;
    PriorityClassName : string }.
End PodSpec.

Module ObjectMeta.
Record t : Type := {
    Name : string;
    Namespace : string;
    Labels : gmap string string;
    Annotations : gmap string string }.

  (** The zero value, [metav1.ObjectMeta{}]. *)
Definition zero : t :=
    {| Name := ""; Namespace := ""; Labels := ∅; Annotations := ∅ |}.
End ObjectMeta.

Module PodTemplateSpec.
Record t : Type := { Meta : ObjectMeta.t; Spec : PodSpec.t }.
End PodTemplateSpec.

(** ** The resource types of the operator ([wordpressv1alpha1]) *)

Module RouteSpec.
Record t : Type := { Domain : string; Path : string }.
End RouteSpec.

Module GitVolumeSource.
Record t : Type := {
    Repository : string;
    GitRef : string;
    Env : list EnvVar.t;
    EnvFrom : list EnvFromSource.t;
    EmptyDir : option EmptyDirVolumeSource.t }.
End GitVolumeSource.

Module PersistentVolumeClaimSpec.
Record t : Type := {
    AccessModes : list string;
    StorageClassName : option string;
    Storage : Quantity }.
End PersistentVolumeClaimSpec.

Module CodeVolumeSpec.
Record t : Type := {
    ReadOnly : bool;
    MountPath : string;
    ContentSubPath : string;
    ConfigSubPath : string;
    GitDir : option GitVolumeSource.t;
    PersistentVolumeClaim : option PersistentVolumeClaimSpec.t;
    HostPath : option HostPathVolumeSource.t;
    EmptyDir : option EmptyDirVolumeSource.t }.
End CodeVolumeSpec.

Module BucketVolumeSource.
  (** [S3VolumeSource] and [GCSVolumeSource] have the same fields. *)
Record t : Type := {
    Bucket : string;
    PathPrefix : string;
    Env : list EnvVar.t }.
End BucketVolumeSource.

Module MediaVolumeSpec.
Record t : Type := {
    ReadOnly : bool;
    MountPath : string;
    ContentSubPath : string;
    S3VolumeSource : option BucketVolumeSource.t;
    GCSVolumeSource : option BucketVolumeSource.t;
    PersistentVolumeClaim : option PersistentVolumeClaimSpec.t;
    HostPath : option HostPathVolumeSource.t;
    EmptyDir : option EmptyDirVolumeSource.t }.
End MediaVolumeSpec.

Module WordpressBootstrapSpec.
Record t : Type := {
    Env : list EnvVar.t;
    EnvFrom : list EnvFromSource.t }.
End WordpressBootstrapSpec.

Module WordpressSpec.
Record t : Type := {
    Image : string;
    ImagePullPolicy : string;
    ImagePullSecrets : list LocalObjectReference.t;
    ServiceAccountName : string;
    Routes : list RouteSpec.t;
    WordpressPathPrefix : string;
    CodeVolumeSpec_ : option CodeVolumeSpec.t;
    MediaVolumeSpec_ : option MediaVolumeSpec.t;
    WordpressBootstrapSpec_ : option WordpressBootstrapSpec.t;
    Env : list EnvVar.t;
    EnvFrom : list EnvFromSource.t;
    Volumes : list Volume.t;
    VolumeMounts : list VolumeMount.t;
    InitContainers : list Container.t;
    Sidecars : list Container.t;
    Resources : ResourceRequirements.t;
    ReadinessProbe : option Probe.t;
    LivenessProbe : option Probe.t;
    NodeSelector : gmap string string;
    Tolerations : list Toleration.t;
    Affinity_ : option Affinity.t;
    PriorityClassName : string;
    PodMetadata : option ObjectMeta.t }.
End WordpressSpec.

Module Wordpress.
Record t : Type := {
    Name : string;
    Namespace : string;
    Spec : WordpressSpec.t }.
End Wordpress.

(** ** Constants and package variables of [pod_template.go] *)

Definition InternalHTTPPort : Z := 8080.
Definition MetricsExporterPort : Z := 9145.
Definition codeVolumeName : string := "code".
Definition mediaVolumeName : string := "media".
Definition s3Prefix : string := "s3".
Definition gcsPrefix : string := "gs".
Definition prepareVolumesImage : string :=
  "gcr.io/google-containers/busybox@sha256:545e6a6310a27636260920bc07b994a299b6708a1b26910cfefd335fdfb60d2b".

Definition wwwDataUserID : Z := 33.

(** The script of the git init container, [gitCloneScript]. *)
Definition gitCloneScript : string :=
  Go.unlines [
    "#!/bin/bash";
    "set -e";
    "set -o pipefail";
    "";
    "export HOME=" +:+ Go.dq +:+ "$(mktemp -d)" +:+ Go.dq;
    "export GIT_SSH_COMMAND=" +:+ Go.dq +:+ "ssh -o UserKnownHostsFile=$HOME/.ssh/knonw_hosts -o StrictHostKeyChecking=no" +:+ Go.dq;
    "";
    "test -d " +:+ Go.dq +:+ "$HOME/.ssh" +:+ Go.dq +:+ " || mkdir " +:+ Go.dq +:+ "$HOME/.ssh" +:+ Go.dq;
    "";
    "if [ ! -z " +:+ Go.dq +:+ "$SSH_RSA_PRIVATE_KEY" +:+ Go.dq +:+ " ] ; then";
    "    echo " +:+ Go.dq +:+ "$SSH_RSA_PRIVATE_KEY" +:+ Go.dq +:+ " > " +:+ Go.dq +:+ "$HOME/.ssh/id_rsa" +:+ Go.dq;
    "    chmod 0400 " +:+ Go.dq +:+ "$HOME/.ssh/id_rsa" +:+ Go.dq;
    "    export GIT_SSH_COMMAND=" +:+ Go.dq +:+ "$GIT_SSH_COMMAND -o IdentityFile=$HOME/.ssh/id_rsa" +:+ Go.dq;
    "fi";
    "";
    "if [ -z " +:+ Go.dq +:+ "$GIT_CLONE_URL" +:+ Go.dq +:+ " ] ; then";
    "    echo " +:+ Go.dq +:+ "No \$GIT_CLONE_URL specified" +:+ Go.dq +:+ " >&2";
    "    exit 1";
    "fi";
    "";
    "find " +:+ Go.dq +:+ "$SRC_DIR" +:+ Go.dq +:+ " -maxdepth 1 -mindepth 1 -print0 | xargs -0 /bin/rm -rf";
    "";
    "set -x";
    "git clone " +:+ Go.dq +:+ "$GIT_CLONE_URL" +:+ Go.dq +:+ " " +:+ Go.dq +:+ "$SRC_DIR" +:+ Go.dq;
    "cd " +:+ Go.dq +:+ "$SRC_DIR" +:+ Go.dq;
    "git checkout -B " +:+ Go.dq +:+ "$GIT_CLONE_REF" +:+ Go.dq +:+ " " +:+ Go.dq +:+ "origin/$GIT_CLONE_REF" +:+ Go.dq ].

(** The command of the post-start hook. *)
Definition postStartScript : string :=
  "if test -n " +:+ Go.dq +:+ "$POST_START_SCRIPTS" +:+ Go.dq +:+ " && command -v run-parts >/dev/null 2>&1 && test -d " +:+ Go.dq +:+ "$POST_START_SCRIPTS" +:+ Go.dq +:+ "  ; then run-parts --exit-on-error -v " +:+ Go.dq +:+ "$POST_START_SCRIPTS" +:+ Go.dq +:+ " ; fi".

(** The command of the pre-stop hook. *)
Definition preStopScript : string :=
  "if test -n " +:+ Go.dq +:+ "$PRE_STOP_SCRIPTS" +:+ Go.dq +:+ " && command -v run-parts >/dev/null 2>&1 && test -d " +:+ Go.dq +:+ "$PRE_STOP_SCRIPTS" +:+ Go.dq +:+ "  ; then run-parts --exit-on-error -v " +:+ Go.dq +:+ "$PRE_STOP_SCRIPTS" +:+ Go.dq +:+ " ; fi".


(** [prepareVolumesScriptTpl] executed on the map with the keys
    [wwwDataUserID], [knativeInternalDir] and [knativeVarLogDir]. *)
Definition prepareVolumesScript (uid internalDir varLogDir : string) : string :=
  Go.unlines [
    "#!/bin/sh";
    "test -d /mnt/code && chown " +:+ uid +:+ ":" +:+ uid +:+ " /mnt/code";
    "test -d /mnt/media && chown " +:+ uid +:+ ":" +:+ uid +:+ " /mnt/media";
    "test -d " +:+ varLogDir +:+ " && chown " +:+ uid +:+ ":" +:+ uid +:+ " " +:+ varLogDir;
    "ln -sf ../log " +:+ internalDir +:+ "/${POD_NAMESPACE}_${POD_NAME}_wordpress" ].

Definition s3EnvVars : gmap string string :=
  list_to_map [
    ("AWS_ACCESS_KEY_ID", "AWS_ACCESS_KEY_ID");
    ("AWS_SECRET_ACCESS_KEY", "AWS_SECRET_ACCESS_KEY");
    ("AWS_CONFIG_FILE", "AWS_CONFIG_FILE");
    ("ENDPOINT", "S3_ENDPOINT") ].

Definition gcsEnvVars : gmap string string :=
  list_to_map [
    ("GOOGLE_CREDENTIALS", "GOOGLE_CREDENTIALS");
    ("GOOGLE_APPLICATION_CREDENTIALS", "GOOGLE_APPLICATION_CREDENTIALS") ].

(** [corev1.DefaultProcMount] and [corev1.RestartPolicyNever]. *)
Definition DefaultProcMount : string := "Default".
Definition RestartPolicyNever : string := "Never".

(** ** What the file takes from the rest of the repository

    The methods [MainDomain], [HomeURL], [SiteURL], [ComponentName],
    [WebPodLabels] and [JobPodLabels] of [Wordpress], the mount-path and
    volume-name constants, [varLogSizeLimit] and [options.GitCloneImage] are
    declared in other files of the repository; the derivation is
    parametrised by them. *)

Inductive component : Type :=
  | WordpressSecret
  | WordpressCodePVC
  | WordpressMediaPVC.

Class Externals : Type := {
  MainDomain : Wordpress.t -> string;
  HomeURL : Wordpress.t -> string;
  SiteURL : Wordpress.t -> string;
  ComponentName : Wordpress.t -> component -> string;
  WebPodLabels : Wordpress.t -> gmap string string;
  JobPodLabels : Wordpress.t -> gmap string string;
  codeSrcMountPath : string;
  configMountPath : string;
  knativeVarLogMountPath : string;
  knativeVarLogVolume : string;
  knativeInternalMountPath : string;
  knativeInternalVolume : string;
  varLogSizeLimit : Quantity;
  GitCloneImage : string }.

(** ** Iteration over a Go map

    [range] over a map visits the entries in an order the language leaves
    unspecified: an order is any function that lists the entries of every
    map, each once. *)

Record MapOrder : Type := {
  range : gmap string string -> list (string * string);
  range_perm : forall m, range m ≡ₚ map_to_list m }.

(** [labels.Merge] of [k8s.io/apimachinery]: both maps are copied, entry by
    entry, into a new map, the second after the first. *)
Definition labels_Merge (o1 o2 : MapOrder) (labels1 labels2 : gmap string string)
    : gmap string string :=
  let mergedMap := ∅ in
  let mergedMap := foldl (fun m kv => <[kv.1 := kv.2]> m) mergedMap (range o1 labels1) in
  let mergedMap := foldl (fun m kv => <[kv.1 := kv.2]> m) mergedMap (range o2 labels2) in
  mergedMap.

(** ** The functions of [pod_template.go] *)

Section PodTemplate.
Context `{X : Externals}.

Implicit Types wp : Wordpress.t.

(** One iteration of the loops of [mediaEnv] over a backend's credentials:
    an entry whose name is a key of [table] is appended under the name the
    table gives, any other is skipped. *)
Definition remapEnv (table : gmap string string) (out : list EnvVar.t)
    (env : EnvVar.t) : list EnvVar.t :=
  match table !! EnvVar.Name env with
  | Some name => out ++ [EnvVar.rename name env]
  | None => out
  end.

Definition mediaEnv wp : list EnvVar.t :=
  let out := [] in
  match WordpressSpec.MediaVolumeSpec_ (Wordpress.Spec wp) with
  | None => out
  | Some media =>
      let out :=
        match MediaVolumeSpec.S3VolumeSource media with
        | Some s3 =>
            let bucket :=
              Go.path_Join [BucketVolumeSource.Bucket s3; BucketVolumeSource.PathPrefix s3] in
            let out :=
              out ++ [EnvVar.lit "STACK_MEDIA_BUCKET" (Go.sprintf_url s3Prefix bucket)] in
            foldl (remapEnv s3EnvVars) out (BucketVolumeSource.Env s3)
        | None => out
        end in
      let out :=
        match MediaVolumeSpec.GCSVolumeSource media with
        | Some gcs =>
            let bucket :=
              Go.path_Join [BucketVolumeSource.Bucket gcs; BucketVolumeSource.PathPrefix gcs] in
            let out :=
              out ++ [EnvVar.lit "STACK_MEDIA_BUCKET" (Go.sprintf_url gcsPrefix bucket)] in
            foldl (remapEnv gcsEnvVars) out (BucketVolumeSource.Env gcs)
        | None => out
        end in
      out
  end.

(** [routes]: the slice is allocated at the length of [Spec.Routes] and
    filled by index. *)
Definition routes wp : list string :=
  let rs := WordpressSpec.Routes (Wordpress.Spec wp) in
  if (length rs =? 0)%nat then [MainDomain wp]
  else
    let out := replicate (length rs) "" in
    foldl (fun out ir =>
             <[ir.1 := Go.path_Join [RouteSpec.Domain ir.2; RouteSpec.Path ir.2]]> out)
          out (imap (fun i r => (i, r)) rs).

Definition env wp : list EnvVar.t :=
  let out :=
    [ EnvVar.lit "WP_HOME" (HomeURL wp);
      EnvVar.lit "WP_SITEURL" (SiteURL wp);
      EnvVar.lit "WP_CORE_DIRECTORY" (WordpressSpec.WordpressPathPrefix (Wordpress.Spec wp));
      EnvVar.lit "STACK_ROUTES" (Go.strings_Join (routes wp) ",");
      EnvVar.lit "STACK_SITE_NAME" (Wordpress.Name wp);
      EnvVar.lit "STACK_SITE_NAMESPACE" (Wordpress.Namespace wp) ]
    ++ WordpressSpec.Env (Wordpress.Spec wp) in
  let out := out ++ mediaEnv wp in
  out.

Definition envFrom wp : list EnvFromSource.t :=
  let out :=
    [ {| EnvFromSource.Prefix := "";
         EnvFromSource.ConfigMapRef := None;
         EnvFromSource.SecretRef :=
           Some {| SecretEnvSource.Name := ComponentName wp WordpressSecret;
                   SecretEnvSource.Optional := None |} |} ] in
  let out := out ++ WordpressSpec.EnvFrom (Wordpress.Spec wp) in
  out.

(** [gitCloneEnv] reads [wp.Spec.CodeVolumeSpec.GitDir] with no check of
    [CodeVolumeSpec]. *)
Definition gitCloneEnv wp : option (list EnvVar.t) :=
  code ← WordpressSpec.CodeVolumeSpec_ (Wordpress.Spec wp);
  match CodeVolumeSpec.GitDir code with
  | None => Some []
  | Some git =>
      let out :=
        [ EnvVar.lit "GIT_CLONE_URL" (GitVolumeSource.Repository git);
          EnvVar.lit "SRC_DIR" codeSrcMountPath ] in
      let out :=
        if (0 <? String.length (GitVolumeSource.GitRef git))%nat
        then out ++ [EnvVar.lit "GIT_CLONE_REF" (GitVolumeSource.GitRef git)]
        else out in
      let out := out ++ GitVolumeSource.Env git in
      Some out
  end.

Definition hasMediaMounts wp : bool :=
  match WordpressSpec.MediaVolumeSpec_ (Wordpress.Spec wp) with
  | None => false
  | Some media =>
      if Go.notnil (MediaVolumeSpec.PersistentVolumeClaim media) then true
      else if Go.notnil (MediaVolumeSpec.HostPath media) then true
      else if Go.notnil (MediaVolumeSpec.EmptyDir media) then true
      else false
  end.

Definition hasCodeMounts wp : bool :=
  match WordpressSpec.CodeVolumeSpec_ (Wordpress.Spec wp) with
  | None => false
  | Some code =>
      if Go.notnil (CodeVolumeSpec.GitDir code) then true
      else if Go.notnil (CodeVolumeSpec.PersistentVolumeClaim code) then true
      else if Go.notnil (CodeVolumeSpec.HostPath code) then true
      else if Go.notnil (CodeVolumeSpec.EmptyDir code) then true
      else false
  end.

Definition volumeMounts wp : option (list VolumeMount.t) :=
  let out :=
    [ {| VolumeMount.MountPath := knativeVarLogMountPath;
         VolumeMount.Name := knativeVarLogVolume;
         VolumeMount.ReadOnly := false;
         VolumeMount.SubPath := "" |} ] in
  let out := out ++ WordpressSpec.VolumeMounts (Wordpress.Spec wp) in
  out ←
    (if hasCodeMounts wp then
       code ← WordpressSpec.CodeVolumeSpec_ (Wordpress.Spec wp);
       let out :=
         out ++ [ {| VolumeMount.MountPath := codeSrcMountPath;
                     VolumeMount.Name := codeVolumeName;
                     VolumeMount.ReadOnly := CodeVolumeSpec.ReadOnly code;
                     VolumeMount.SubPath := "" |} ] in
       let out :=
         out ++ [ {| VolumeMount.MountPath := CodeVolumeSpec.MountPath code;
                     VolumeMount.Name := codeVolumeName;
                     VolumeMount.ReadOnly := CodeVolumeSpec.ReadOnly code;
                     VolumeMount.SubPath := CodeVolumeSpec.ContentSubPath code |} ] in
       let out :=
         out ++ [ {| VolumeMount.MountPath := configMountPath;
                     VolumeMount.Name := codeVolumeName;
                     VolumeMount.ReadOnly := true;
                     VolumeMount.SubPath := CodeVolumeSpec.ConfigSubPath code |} ] in
       Some out
     else Some out);
  out ←
    (if hasMediaMounts wp then
       media ← WordpressSpec.MediaVolumeSpec_ (Wordpress.Spec wp);
       let v :=
         {| VolumeMount.MountPath := MediaVolumeSpec.MountPath media;
            VolumeMount.Name := mediaVolumeName;
            VolumeMount.ReadOnly := MediaVolumeSpec.ReadOnly media;
            VolumeMount.SubPath := "" |} in
       let v :=
         if negb (String.eqb (MediaVolumeSpec.ContentSubPath media) "")
         then {| VolumeMount.MountPath := VolumeMount.MountPath v;
                 VolumeMount.Name := VolumeMount.Name v;
                 VolumeMount.ReadOnly := VolumeMount.ReadOnly v;
                 VolumeMount.SubPath := MediaVolumeSpec.ContentSubPath media |}
         else v in
       Some (out ++ [v])
     else Some out);
  Some out.

(** [corev1.Volume{Name: name, VolumeSource: corev1.VolumeSource{EmptyDir: e}}]. *)
Definition emptyDirVolume (name : string) (e : EmptyDirVolumeSource.t) : Volume.t :=
  {| Volume.Name := name;
     Volume.Source :=
       {| VolumeSource.HostPath := None;
          VolumeSource.EmptyDir := Some e;
          VolumeSource.PersistentVolumeClaim := None |} |}.

(** The assignment [v.EmptyDir = e] to the embedded volume source. *)
Definition setEmptyDir (v : Volume.t) (e : EmptyDirVolumeSource.t) : Volume.t :=
  {| Volume.Name := Volume.Name v;
     Volume.Source :=
       {| VolumeSource.HostPath := VolumeSource.HostPath (Volume.Source v);
          VolumeSource.EmptyDir := Some e;
          VolumeSource.PersistentVolumeClaim :=
            VolumeSource.PersistentVolumeClaim (Volume.Source v) |} |}.

(** A volume of the claim [claim]. *)
Definition claimVolume (name claim : string) : Volume.t :=
  {| Volume.Name := name;
     Volume.Source :=
       {| VolumeSource.HostPath := None;
          VolumeSource.EmptyDir := None;
          VolumeSource.PersistentVolumeClaim :=
            Some {| PersistentVolumeClaimVolumeSource.ClaimName := claim;
                    PersistentVolumeClaimVolumeSource.ReadOnly := false |} |} |}.

(** A volume of the host path [h]. *)
Definition hostPathVolume (name : string) (h : HostPathVolumeSource.t) : Volume.t :=
  {| Volume.Name := name;
     Volume.Source :=
       {| VolumeSource.HostPath := Some h;
          VolumeSource.EmptyDir := None;
          VolumeSource.PersistentVolumeClaim := None |} |}.

Definition codeVolume wp : Volume.t :=
  let codeVolume := emptyDirVolume codeVolumeName EmptyDirVolumeSource.zero in
  match WordpressSpec.CodeVolumeSpec_ (Wordpress.Spec wp) with
  | Some code =>
      match CodeVolumeSpec.GitDir code with
      | Some git =>
          match GitVolumeSource.EmptyDir git with
          | Some e => setEmptyDir codeVolume e
          | None => codeVolume
          end
      | None =>
      match CodeVolumeSpec.PersistentVolumeClaim code with
      | Some _ => claimVolume codeVolumeName (ComponentName wp WordpressCodePVC)
      | None =>
      match CodeVolumeSpec.HostPath code with
      | Some h => hostPathVolume codeVolumeName h
      | None =>
      match CodeVolumeSpec.EmptyDir code with
      | Some e => setEmptyDir codeVolume e
      | None => codeVolume
      end end end end
  | None => codeVolume
  end.

Definition mediaVolume wp : Volume.t :=
  let mediaVolume := emptyDirVolume mediaVolumeName EmptyDirVolumeSource.zero in
  match WordpressSpec.MediaVolumeSpec_ (Wordpress.Spec wp) with
  | Some media =>
      match MediaVolumeSpec.PersistentVolumeClaim media with
      | Some _ => claimVolume mediaVolumeName (ComponentName wp WordpressMediaPVC)
      | None =>
      match MediaVolumeSpec.HostPath media with
      | Some h => hostPathVolume mediaVolumeName h
      | None =>
      match MediaVolumeSpec.EmptyDir media with
      | Some e => setEmptyDir mediaVolume e
      | None => mediaVolume
      end end end
  | None => mediaVolume
  end.

Definition volumes wp : list Volume.t :=
  let volumes :=
    [ emptyDirVolume knativeInternalVolume EmptyDirVolumeSource.zero;
      emptyDirVolume knativeVarLogVolume
        {| EmptyDirVolumeSource.Medium := "";
           EmptyDirVolumeSource.SizeLimit := Some varLogSizeLimit |} ] in
  let volumes := volumes ++ WordpressSpec.Volumes (Wordpress.Spec wp) in
  let volumes := if hasCodeMounts wp then volumes ++ [codeVolume wp] else volumes in
  let volumes := if hasMediaMounts wp then volumes ++ [mediaVolume wp] else volumes in
  volumes.

Definition securityContext wp : SecurityContext.t :=
  let defaultProcMount := DefaultProcMount in
  {| SecurityContext.RunAsUser := Some wwwDataUserID;
     SecurityContext.ProcMount := Some defaultProcMount |}.

(** A mount of the volume [name] at [path], all else zero. *)
Definition mountAt (name path : string) : VolumeMount.t :=
  {| VolumeMount.Name := name;
     VolumeMount.ReadOnly := false;
     VolumeMount.MountPath := path;
     VolumeMount.SubPath := "" |}.

(** The assignment [m.SubPath = sub]. *)
Definition setSubPath (m : VolumeMount.t) (sub : string) : VolumeMount.t :=
  {| VolumeMount.Name := VolumeMount.Name m;
     VolumeMount.ReadOnly := VolumeMount.ReadOnly m;
     VolumeMount.MountPath := VolumeMount.MountPath m;
     VolumeMount.SubPath := sub |}.

(** [gitCloneContainer] reads [wp.Spec.CodeVolumeSpec.GitDir.EnvFrom] with
    no check of either pointer. *)
Definition gitCloneContainer wp : option Container.t :=
  env ← gitCloneEnv wp;
  code ← WordpressSpec.CodeVolumeSpec_ (Wordpress.Spec wp);
  git ← CodeVolumeSpec.GitDir code;
  Some {| Container.Name := "git";
          Container.Image := GitCloneImage;
          Container.Command := [];
          Container.Args := ["/bin/bash"; "-c"; gitCloneScript];
          Container.Ports := [];
          Container.EnvFrom := GitVolumeSource.EnvFrom git;
          Container.Env := env;
          Container.Resources := ResourceRequirements.zero;
          Container.VolumeMounts := [mountAt codeVolumeName codeSrcMountPath];
          Container.LivenessProbe := None;
          Container.ReadinessProbe := None;
          Container.Lifecycle_ := None;
          Container.ImagePullPolicy := "";
          Container.SecurityContext_ := Some (securityContext wp) |}.

(** An environment variable whose value is the pod field [path]. *)
Definition fieldRefEnv (name path : string) : EnvVar.t :=
  {| EnvVar.Name := name;
     EnvVar.Value := "";
     EnvVar.ValueFrom :=
       Some {| EnvVarSource.FieldRef := Some {| ObjectFieldSelector.FieldPath := path |};
               EnvVarSource.ConfigMapKeyRef := None;
               EnvVarSource.SecretKeyRef := None |} |}.

Definition prepareVolumesContainer wp : option Container.t :=
  let script :=
    prepareVolumesScript (Go.sprintf_d wwwDataUserID)
      knativeInternalMountPath knativeVarLogMountPath in
  let mounts :=
    [ mountAt knativeInternalVolume knativeInternalMountPath;
      mountAt knativeVarLogVolume knativeVarLogMountPath ] in
  mounts ←
    (if hasCodeMounts wp then
       code ← WordpressSpec.CodeVolumeSpec_ (Wordpress.Spec wp);
       if negb (CodeVolumeSpec.ReadOnly code) then
         let m := mountAt codeVolumeName "/mnt/code" in
         let m :=
           if negb (String.eqb (CodeVolumeSpec.ContentSubPath code) "")
           then setSubPath m (CodeVolumeSpec.ContentSubPath code) else m in
         Some (mounts ++ [m])
       else Some mounts
     else Some mounts);
  mounts ←
    (if hasMediaMounts wp then
       media ← WordpressSpec.MediaVolumeSpec_ (Wordpress.Spec wp);
       if negb (MediaVolumeSpec.ReadOnly media) then
         let m := mountAt mediaVolumeName "/mnt/media" in
         let m :=
           if negb (String.eqb (MediaVolumeSpec.ContentSubPath media) "")
           then setSubPath m (MediaVolumeSpec.ContentSubPath media) else m in
         Some (mounts ++ [m])
       else Some mounts
     else Some mounts);
  Some {| Container.Name := "prepare-volumes";
          Container.Image := prepareVolumesImage;
          Container.Command := [];
          Container.Args := ["/bin/sh"; "-c"; script];
          Container.Ports := [];
          Container.EnvFrom := [];
          Container.Env :=
            [ fieldRefEnv "POD_NAMESPACE" "metadata.namespace";
              fieldRefEnv "POD_NAME" "metadata.name" ];
          Container.Resources := ResourceRequirements.zero;
          Container.VolumeMounts := mounts;
          Container.LivenessProbe := None;
          Container.ReadinessProbe := None;
          Container.Lifecycle_ := None;
          Container.ImagePullPolicy := "";
          Container.SecurityContext_ := None |}.

Definition installWPContainer wp : option (list Container.t) :=
  match WordpressSpec.WordpressBootstrapSpec_ (Wordpress.Spec wp) with
  | None => Some []
  | Some bootstrap =>
      mounts ← volumeMounts wp;
      Some [ {| Container.Name := "install-wp";
                Container.Image := WordpressSpec.Image (Wordpress.Spec wp);
                Container.Command := ["wp-install"];
                Container.Args :=
                  [ "$(WORDPRESS_BOOTSTRAP_TITLE)";
                    HomeURL wp;
                    "$(WORDPRESS_BOOTSTRAP_USER)";
                    "$(WORDPRESS_BOOTSTRAP_PASSWORD)";
                    "$(WORDPRESS_BOOTSTRAP_EMAIL)" ];
                Container.Ports := [];
                Container.EnvFrom := envFrom wp ++ WordpressBootstrapSpec.EnvFrom bootstrap;
                Container.Env := env wp ++ WordpressBootstrapSpec.Env bootstrap;
                Container.Resources := ResourceRequirements.zero;
                Container.VolumeMounts := mounts;
                Container.LivenessProbe := None;
                Container.ReadinessProbe := None;
                Container.Lifecycle_ := None;
                Container.ImagePullPolicy := "";
                Container.SecurityContext_ := Some (securityContext wp) |} ]
  end.

(** The test [wp.Spec.CodeVolumeSpec != nil && wp.Spec.CodeVolumeSpec.GitDir != nil]
    of [initContainers]. *)
Definition hasGitDir wp : bool :=
  match WordpressSpec.CodeVolumeSpec_ (Wordpress.Spec wp) with
  | Some code => Go.notnil (CodeVolumeSpec.GitDir code)
  | None => false
  end.

Definition initContainers wp : option (list Container.t) :=
  let containers := [] in
  containers ←
    (if hasMediaMounts wp || hasCodeMounts wp then
       c ← prepareVolumesContainer wp; Some (containers ++ [c])
     else Some containers);
  let containers := containers ++ WordpressSpec.InitContainers (Wordpress.Spec wp) in
  containers ←
    (if hasGitDir wp then
       c ← gitCloneContainer wp; Some (containers ++ [c])
     else Some containers);
  install ← installWPContainer wp;
  Some (containers ++ install).

(** The handler of an HTTP GET probe. *)
Definition httpGetHandler (path : string) (port : IntOrString)
    (headers : list HTTPHeader.t) : Handler.t :=
  {| Handler.Exec := None;
     Handler.HTTPGet :=
       Some {| HTTPGetAction.Path := path;
               HTTPGetAction.Port := port;
               HTTPGetAction.Host := "";
               HTTPGetAction.Scheme := "";
               HTTPGetAction.HTTPHeaders := headers |};
     Handler.TCPSocket := None |}.

Definition readinessProbe wp : Probe.t :=
  match WordpressSpec.ReadinessProbe (Wordpress.Spec wp) with
  | Some probe => probe
  | None =>
      {| Probe.Handler_ :=
           httpGetHandler "/" (intstr_FromInt InternalHTTPPort)
             [ {| HTTPHeader.Name := "Host"; HTTPHeader.Value := MainDomain wp |} ];
         Probe.FailureThreshold := 3;
         Probe.InitialDelaySeconds := 10;
         Probe.PeriodSeconds := 5;
         Probe.SuccessThreshold := 1;
         Probe.TimeoutSeconds := 30 |}
  end.

Definition livenessProbe wp : Probe.t :=
  match WordpressSpec.LivenessProbe (Wordpress.Spec wp) with
  | Some probe => probe
  | None =>
      {| Probe.Handler_ :=
           httpGetHandler "/-/php-ping" (intstr_FromInt InternalHTTPPort) [];
         Probe.FailureThreshold := 3;
         Probe.InitialDelaySeconds := 10;
         Probe.PeriodSeconds := 5;
         Probe.SuccessThreshold := 1;
         Probe.TimeoutSeconds := 30 |}
  end.

(** A lifecycle handler that runs [script] in a shell. *)
Definition execHandler (script : string) : Handler.t :=
  {| Handler.Exec := Some {| ExecAction.Command := ["/bin/sh"; "-c"; script] |};
     Handler.HTTPGet := None;
     Handler.TCPSocket := None |}.

(** The start of both templates: the copy of [Spec.PodMetadata], when set,
    with the labels merged with [podLabels]. *)
Definition templateMeta (o1 o2 : MapOrder) wp (podLabels : gmap string string)
    : ObjectMeta.t :=
  let meta :=
    match WordpressSpec.PodMetadata (Wordpress.Spec wp) with
    | Some m => m
    | None => ObjectMeta.zero
    end in
  {| ObjectMeta.Name := ObjectMeta.Name meta;
     ObjectMeta.Namespace := ObjectMeta.Namespace meta;
     ObjectMeta.Labels := labels_Merge o1 o2 (ObjectMeta.Labels meta) podLabels;
     ObjectMeta.Annotations := ObjectMeta.Annotations meta |}.

Definition WebPodTemplateSpec (o1 o2 : MapOrder) wp : option PodTemplateSpec.t :=
  let spec := Wordpress.Spec wp in
  let meta := templateMeta o1 o2 wp (WebPodLabels wp) in
  let serviceAccountName :=
    if (0 <? String.length (WordpressSpec.ServiceAccountName spec))%nat
    then WordpressSpec.ServiceAccountName spec else "" in
  inits ← initContainers wp;
  mounts ← volumeMounts wp;
  let wordpressContainer :=
    {| Container.Name := "wordpress";
       Container.Image := WordpressSpec.Image spec;
       Container.Command := [];
       Container.Args := [];
       Container.Ports :=
         [ {| ContainerPort.Name := "http";
              ContainerPort.ContainerPort_ := InternalHTTPPort |};
           {| ContainerPort.Name := "prometheus";
              ContainerPort.ContainerPort_ := MetricsExporterPort |} ];
       Container.EnvFrom := envFrom wp;
       Container.Env := env wp;
       Container.Resources := WordpressSpec.Resources spec;
       Container.VolumeMounts := mounts;
       Container.LivenessProbe := Some (livenessProbe wp);
       Container.ReadinessProbe := Some (readinessProbe wp);
       Container.Lifecycle_ :=
         Some {| Lifecycle.PostStart := Some (execHandler postStartScript);
                 Lifecycle.PreStop := Some (execHandler preStopScript) |};
       Container.ImagePullPolicy := WordpressSpec.ImagePullPolicy spec;
       Container.SecurityContext_ := Some (securityContext wp) |} in
  Some {| PodTemplateSpec.Meta := meta;
          PodTemplateSpec.Spec :=
            {| PodSpec.Volumes := volumes wp;
               PodSpec.InitContainers := inits;
               PodSpec.Containers := [wordpressContainer] ++ WordpressSpec.Sidecars spec;
               PodSpec.RestartPolicy := "";
               PodSpec.NodeSelector :=
                 if (0 <? size (WordpressSpec.NodeSelector spec))%nat
                 then WordpressSpec.NodeSelector spec else ∅;
               PodSpec.ServiceAccountName := serviceAccountName;
               PodSpec.SecurityContext_ := None;
               PodSpec.ImagePullSecrets := WordpressSpec.ImagePullSecrets spec;
               PodSpec.Affinity_ := WordpressSpec.Affinity_ spec;
               PodSpec.Tolerations :=
                 if (0 <? length (WordpressSpec.Tolerations spec))%nat
                 then WordpressSpec.Tolerations spec else [];
               PodSpec.PriorityClassName :=
                 if (0 <? String.length (WordpressSpec.PriorityClassName spec))%nat
                 then WordpressSpec.PriorityClassName spec else "" |} |}.

Definition JobPodTemplateSpec (o1 o2 : MapOrder) wp (cmd : list string)
    : option PodTemplateSpec.t :=
  let spec := Wordpress.Spec wp in
  let meta := templateMeta o1 o2 wp (JobPodLabels wp) in
  let serviceAccountName :=
    if (0 <? String.length (WordpressSpec.ServiceAccountName spec))%nat
    then WordpressSpec.ServiceAccountName spec else "" in
  inits ← initContainers wp;
  mounts ← volumeMounts wp;
  let wordpressContainer :=
    {| Container.Name := "wp-cli";
       Container.Image := WordpressSpec.Image spec;
       Container.Command := [];
       Container.Args := cmd;
       Container.Ports := [];
       Container.EnvFrom := envFrom wp;
       Container.Env := env wp;
       Container.Resources := ResourceRequirements.zero;
       Container.VolumeMounts := mounts;
       Container.LivenessProbe := None;
       Container.ReadinessProbe := None;
       Container.Lifecycle_ := None;
       Container.ImagePullPolicy := WordpressSpec.ImagePullPolicy spec;
       Container.SecurityContext_ := Some (securityContext wp) |} in
  Some {| PodTemplateSpec.Meta := meta;
          PodTemplateSpec.Spec :=
            {| PodSpec.Volumes := volumes wp;
               PodSpec.InitContainers := inits;
               PodSpec.Containers := [wordpressContainer] ++ WordpressSpec.Sidecars spec;
               PodSpec.RestartPolicy := RestartPolicyNever;
               PodSpec.NodeSelector :=
                 if (0 <? size (WordpressSpec.NodeSelector spec))%nat
                 then WordpressSpec.NodeSelector spec else ∅;
               PodSpec.ServiceAccountName := serviceAccountName;
               PodSpec.SecurityContext_ :=
                 Some {| PodSecurityContext.FSGroup := Some wwwDataUserID |};
               PodSpec.ImagePullSecrets := WordpressSpec.ImagePullSecrets spec;
               PodSpec.Affinity_ := WordpressSpec.Affinity_ spec;
               PodSpec.Tolerations :=
                 if (0 <? length (WordpressSpec.Tolerations spec))%nat
                 then WordpressSpec.Tolerations spec else [];
               PodSpec.PriorityClassName :=
                 if (0 <? String.length (WordpressSpec.PriorityClassName spec))%nat
                 then WordpressSpec.PriorityClassName spec else "" |} |}.

End PodTemplate.

(** ** Notions the properties are stated with *)

Section Notions.
Context `{X : Externals}.

Implicit Types wp : Wordpress.t.

(** The media-derived variables of one backend, as the specification words
    them: nothing when the backend is unset; otherwise the bucket variable,
    of value [prefix://bucket/pathPrefix], followed by the credentials whose
    name is a key of [table], each under the name the table gives, the
    others dropped.  To be compared with [mediaEnv]. *)
Definition backendEnv (prefix : string) (table : gmap string string)
    (src : option BucketVolumeSource.t) : list EnvVar.t :=
  match src with
  | None => []
  | Some b =>
      EnvVar.lit "STACK_MEDIA_BUCKET"
        (prefix +:+ "://" +:+
         Go.path_Join [BucketVolumeSource.Bucket b; BucketVolumeSource.PathPrefix b])
      :: omap (fun e => (fun name => EnvVar.rename name e) <$> table !! EnvVar.Name e)
              (BucketVolumeSource.Env b)
  end.

(** The mount of the log volume every mount list starts with. *)
Definition logMount : VolumeMount.t :=
  {| VolumeMount.Name := knativeVarLogVolume;
     VolumeMount.ReadOnly := false;
     VolumeMount.MountPath := knativeVarLogMountPath;
     VolumeMount.SubPath := "" |}.

(** The three views of the code volume: the fetch destination, the content
    sub-path at the application path and the config sub-path, read-only, at
    the configuration path. *)
Definition codeMounts (code : CodeVolumeSpec.t) : list VolumeMount.t :=
  [ {| VolumeMount.Name := codeVolumeName;
       VolumeMount.ReadOnly := CodeVolumeSpec.ReadOnly code;
       VolumeMount.MountPath := codeSrcMountPath;
       VolumeMount.SubPath := "" |};
    {| VolumeMount.Name := codeVolumeName;
       VolumeMount.ReadOnly := CodeVolumeSpec.ReadOnly code;
       VolumeMount.MountPath := CodeVolumeSpec.MountPath code;
       VolumeMount.SubPath := CodeVolumeSpec.ContentSubPath code |};
    {| VolumeMount.Name := codeVolumeName;
       VolumeMount.ReadOnly := true;
       VolumeMount.MountPath := configMountPath;
       VolumeMount.SubPath := CodeVolumeSpec.ConfigSubPath code |} ].

(** The mount of the media volume. *)
Definition mediaMount (media : MediaVolumeSpec.t) : VolumeMount.t :=
  {| VolumeMount.Name := mediaVolumeName;
     VolumeMount.ReadOnly := MediaVolumeSpec.ReadOnly media;
     VolumeMount.MountPath := MediaVolumeSpec.MountPath media;
     VolumeMount.SubPath := MediaVolumeSpec.ContentSubPath media |}.

(** The mounts the code source and the media source contribute to the main
    process: none when the category has no mounts. *)
Definition codeMountsOf wp : list VolumeMount.t :=
  match WordpressSpec.CodeVolumeSpec_ (Wordpress.Spec wp) with
  | Some code => if hasCodeMounts wp then codeMounts code else []
  | None => []
  end.

Definition mediaMountsOf wp : list VolumeMount.t :=
  match WordpressSpec.MediaVolumeSpec_ (Wordpress.Spec wp) with
  | Some media => if hasMediaMounts wp then [mediaMount media] else []
  | None => []
  end.

(** The two auxiliary volumes every volume list starts with. *)
Definition auxVolumes : list Volume.t :=
  [ emptyDirVolume knativeInternalVolume EmptyDirVolumeSource.zero;
    emptyDirVolume knativeVarLogVolume
      {| EmptyDirVolumeSource.Medium := "";
         EmptyDirVolumeSource.SizeLimit := Some varLogSizeLimit |} ].

(** The number of mounts of a list that name the volume [name]. *)
Definition mountsNaming (name : string) (ms : list VolumeMount.t) : nat :=
  length (filter (fun m => VolumeMount.Name m = name) ms).


(** The media source has a backend descriptor and no mount source. *)
Definition backendOnly wp : bool :=
  match WordpressSpec.MediaVolumeSpec_ (Wordpress.Spec wp) with
  | Some media =>
      (Go.notnil (MediaVolumeSpec.S3VolumeSource media)
       || Go.notnil (MediaVolumeSpec.GCSVolumeSource media))
      && negb (Go.notnil (MediaVolumeSpec.PersistentVolumeClaim media))
      && negb (Go.notnil (MediaVolumeSpec.HostPath media))
      && negb (Go.notnil (MediaVolumeSpec.EmptyDir media))
  | None => false
  end.


(** A media mount source is materialized: the volume list has an ephemeral
    volume named as the media volume and the mount list of the main process
    has an entry of that name. *)
Definition mediaMaterializedEphemeral wp : Prop :=
  (exists v, v ∈ volumes wp /\ Volume.Name v = mediaVolumeName
             /\ Volume.is_ephemeral v = true)
  /\ (exists ms m, volumeMounts wp = Some ms /\ m ∈ ms
                   /\ VolumeMount.Name m = mediaVolumeName).

(** The generated init steps, each as the list of zero or one container it
    contributes. *)
Definition prepareStep wp : list Container.t :=
  if hasMediaMounts wp || hasCodeMounts wp
  then option_list (prepareVolumesContainer wp) else [].

Definition gitStep wp : list Container.t :=
  if hasGitDir wp then option_list (gitCloneContainer wp) else [].

Definition installStep wp : list Container.t :=
  default [] (installWPContainer wp).

(** A list of variables starts with the bucket variable of the bucket [b]
    under the scheme [prefix]. *)
Definition startsWithBucket (prefix : string) (b : BucketVolumeSource.t)
    (vars : list EnvVar.t) : Prop :=
  head vars =
  Some (EnvVar.lit "STACK_MEDIA_BUCKET"
          (prefix +:+ "://" +:+
           Go.path_Join [BucketVolumeSource.Bucket b; BucketVolumeSource.PathPrefix b])).

(** The main container of a template: the first of its containers. *)
Definition mainContainer (t : PodTemplateSpec.t) : option Container.t :=
  head (PodSpec.Containers (PodTemplateSpec.Spec t)).

End Notions.

(** ** Sample resources *)

Module Sample.

(** An instance of what the rest of the repository provides, with the
    values of a default deployment. *)
Definition externals : Externals :=
  {| MainDomain wp :=
       match WordpressSpec.Routes (Wordpress.Spec wp) with
       | r :: _ => RouteSpec.Domain r
       | [] => Wordpress.Name wp +:+ "." +:+ Wordpress.Namespace wp +:+ ".svc"
       end;
     HomeURL wp := "http://" +:+ Wordpress.Name wp;
     SiteURL wp := "http://" +:+ Wordpress.Name wp +:+ "/wp";
     ComponentName wp c :=
       match c with
       | WordpressSecret => Wordpress.Name wp +:+ "-wp"
       | WordpressCodePVC => Wordpress.Name wp +:+ "-code"
       | WordpressMediaPVC => Wordpress.Name wp +:+ "-media"
       end;
     WebPodLabels wp := {[ "app.kubernetes.io/component" := "web" ]};
     JobPodLabels wp := {[ "app.kubernetes.io/component" := "wp-cli" ]};
     codeSrcMountPath := "/var/run/presslabs.org/code/src";
     configMountPath := "/app/config";
     knativeVarLogMountPath := "/var/log";
     knativeVarLogVolume := "knative-var-log";
     knativeInternalMountPath := "/var/knative-internal";
     knativeInternalVolume := "knative-internal";
     varLogSizeLimit := "1Gi";
     GitCloneImage := "docker.io/library/buildpack-deps:stretch-scm" |}.

(** A resource named [site] in the namespace [default] with the given code
    source, media source, bootstrap, mounts, routes, environment and
    probes, and nothing else set. *)
Definition site (code : option CodeVolumeSpec.t) (media : option MediaVolumeSpec.t)
    (bootstrap : option WordpressBootstrapSpec.t) (mounts : list VolumeMount.t)
    (routes : list RouteSpec.t) (env : list EnvVar.t)
    (readiness liveness : option Probe.t) : Wordpress.t :=
  {| Wordpress.Name := "site";
     Wordpress.Namespace := "default";
     Wordpress.Spec :=
       {| WordpressSpec.Image := "docker.io/bitpoke/wordpress-runtime:5.8";
          WordpressSpec.ImagePullPolicy := "";
          WordpressSpec.ImagePullSecrets := [];
          WordpressSpec.ServiceAccountName := "";
          WordpressSpec.Routes := routes;
          WordpressSpec.WordpressPathPrefix := "wp";
          WordpressSpec.CodeVolumeSpec_ := code;
          WordpressSpec.MediaVolumeSpec_ := media;
          WordpressSpec.WordpressBootstrapSpec_ := bootstrap;
          WordpressSpec.Env := env;
          WordpressSpec.EnvFrom := [];
          WordpressSpec.Volumes := [];
          WordpressSpec.VolumeMounts := mounts;
          WordpressSpec.InitContainers := [];
          WordpressSpec.Sidecars := [];
          WordpressSpec.Resources := ResourceRequirements.zero;
          WordpressSpec.ReadinessProbe := readiness;
          WordpressSpec.LivenessProbe := liveness;
          WordpressSpec.NodeSelector := ∅;
          WordpressSpec.Tolerations := [];
          WordpressSpec.Affinity_ := None;
          WordpressSpec.PriorityClassName := "";
          WordpressSpec.PodMetadata := None |} |}.

(** A code source of the git variant. *)
Definition gitCode : CodeVolumeSpec.t :=
  {| CodeVolumeSpec.ReadOnly := false;
     CodeVolumeSpec.MountPath := "/app/web/wp-content";
     CodeVolumeSpec.ContentSubPath := "wp-content";
     CodeVolumeSpec.ConfigSubPath := "config";
     CodeVolumeSpec.GitDir :=
       Some {| GitVolumeSource.Repository := "https://example/repo.git";
               GitVolumeSource.GitRef := "main";
               GitVolumeSource.Env := [];
               GitVolumeSource.EnvFrom := [];
               GitVolumeSource.EmptyDir := None |};
     CodeVolumeSpec.PersistentVolumeClaim := None;
     CodeVolumeSpec.HostPath := None;
     CodeVolumeSpec.EmptyDir := None |}.

(** A media source with the given backends and ephemeral mount source. *)
Definition mediaOf (s3 gcs : option BucketVolumeSource.t)
    (emptyDir : option EmptyDirVolumeSource.t) : MediaVolumeSpec.t :=
  {| MediaVolumeSpec.ReadOnly := false;
     MediaVolumeSpec.MountPath := "/app/web/wp-content/uploads";
     MediaVolumeSpec.ContentSubPath := "";
     MediaVolumeSpec.S3VolumeSource := s3;
     MediaVolumeSpec.GCSVolumeSource := gcs;
     MediaVolumeSpec.PersistentVolumeClaim := None;
     MediaVolumeSpec.HostPath := None;
     MediaVolumeSpec.EmptyDir := emptyDir |}.

(** The bucket [b] with the path prefix [p] and three credentials, the last
    of a name no table knows. *)
Definition bucket (known renamed : string) : BucketVolumeSource.t :=
  {| BucketVolumeSource.Bucket := "b";
     BucketVolumeSource.PathPrefix := "p";
     BucketVolumeSource.Env :=
       [ EnvVar.lit known "k"; EnvVar.lit renamed "e"; EnvVar.lit "OTHER" "o" ] |}.

Definition s3Bucket : BucketVolumeSource.t := bucket "AWS_ACCESS_KEY_ID" "ENDPOINT".
Definition gcsBucket : BucketVolumeSource.t := bucket "GOOGLE_CREDENTIALS" "ENDPOINT".

Definition bootstrap : WordpressBootstrapSpec.t :=
  {| WordpressBootstrapSpec.Env := []; WordpressBootstrapSpec.EnvFrom := [] |}.

(** The git code source, an S3 backend with no mount source and a
    bootstrap. *)
Definition gitS3Site : Wordpress.t :=
  site (Some gitCode) (Some (mediaOf (Some s3Bucket) None None)) (Some bootstrap)
    [] [] [] None None.

(** Only an S3 backend. *)
Definition s3OnlySite : Wordpress.t :=
  site None (Some (mediaOf (Some s3Bucket) None None)) None [] [] [] None None.

(** Both backends. *)
Definition bothBackendsSite : Wordpress.t :=
  site None (Some (mediaOf (Some s3Bucket) (Some gcsBucket) None)) None
    [] [] [] None None.

(** Nothing set. *)
Definition bareSite : Wordpress.t := site None None None [] [] [] None None.

(** The git code source and a mount of the caller that names the code
    volume itself. *)
Definition extraCodeMountSite : Wordpress.t :=
  site (Some gitCode) None None
    [ {| VolumeMount.Name := codeVolumeName;
         VolumeMount.ReadOnly := true;
         VolumeMount.MountPath := "/app/extra";
         VolumeMount.SubPath := "extra" |} ]
    [] [] None None.

(** Two routes, and a variable of the caller named as a built-in one. *)
Definition routedSite : Wordpress.t :=
  site None None None []
    [ {| RouteSpec.Domain := "example.com"; RouteSpec.Path := "/" |};
      {| RouteSpec.Domain := "example.org"; RouteSpec.Path := "/blog" |} ]
    [ EnvVar.lit "WP_HOME" "http://override" ] None None.

(** A code source with the git, claim and host-path variants set at once. *)
Definition manyVariantsCode : CodeVolumeSpec.t :=
  {| CodeVolumeSpec.ReadOnly := true;
     CodeVolumeSpec.MountPath := "/app/web/wp-content";
     CodeVolumeSpec.ContentSubPath := "wp-content";
     CodeVolumeSpec.ConfigSubPath := "config";
     CodeVolumeSpec.GitDir := CodeVolumeSpec.GitDir gitCode;
     CodeVolumeSpec.PersistentVolumeClaim :=
       Some {| PersistentVolumeClaimSpec.AccessModes := ["ReadWriteOnce"];
               PersistentVolumeClaimSpec.StorageClassName := None;
               PersistentVolumeClaimSpec.Storage := "1Gi" |};
     CodeVolumeSpec.HostPath :=
       Some {| HostPathVolumeSource.Path := "/srv/code";
               HostPathVolumeSource.Type_ := None |};
     CodeVolumeSpec.EmptyDir := None |}.

Definition manyVariantsSite : Wordpress.t :=
  site (Some manyVariantsCode) None None [] [] [] None None.

(** A probe of the caller: a TCP check of port 9000. *)
Definition tcpProbe : Probe.t :=
  {| Probe.Handler_ :=
       {| Handler.Exec := None;
          Handler.HTTPGet := None;
          Handler.TCPSocket :=
            Some {| TCPSocketAction.Port := IntVal 9000; TCPSocketAction.Host := "" |} |};
     Probe.InitialDelaySeconds := 1;
     Probe.TimeoutSeconds := 2;
     Probe.PeriodSeconds := 3;
     Probe.SuccessThreshold := 4;
     Probe.FailureThreshold := 5 |}.

Definition probedSite : Wordpress.t :=
  site None None None [] [] [] (Some tcpProbe) (Some tcpProbe).

(** Two iteration orders: the order of [map_to_list] and its reverse. *)
Program Definition forwards : MapOrder := {| range := map_to_list |}.
Next Obligation. reflexivity. Qed.

Program Definition backwards : MapOrder := {| range m := reverse (map_to_list m) |}.
Next Obligation. intros m. apply reverse_Permutation. Qed.

End Sample.

(** ** Further notions *)

Section MoreNotions.
Context `{X : Externals}.

Implicit Types wp : Wordpress.t.

(** A path component with nothing for [path.Clean] to rewrite: not empty,
    not [.] nor [..], and with no slash. *)
Definition plain (s : string) : bool :=
  negb (String.eqb s "") && negb (String.eqb s ".") && negb (String.eqb s "..")
  && forallb (fun c => negb (Ascii.eqb c Go.slash)) (list_ascii_of_string s).

(** A path without its leading slash, if it has one. *)
Definition trimSlash (p : string) : string :=
  match p with
  | String c rest => if Ascii.eqb c Go.slash then rest else p
  | EmptyString => p
  end.

(** A route of a plain domain whose path is empty, the root, or one plain
    segment with or without a leading slash. *)
Definition simpleRoute (r : RouteSpec.t) : bool :=
  plain (RouteSpec.Domain r)
  && (String.eqb (trimSlash (RouteSpec.Path r)) ""
      || plain (trimSlash (RouteSpec.Path r))).

(** The text of a simple route: the domain alone for the empty and the root
    path, else the domain, a slash and the segment. *)
Definition routeText (r : RouteSpec.t) : string :=
  if String.eqb (trimSlash (RouteSpec.Path r)) "" then RouteSpec.Domain r
  else RouteSpec.Domain r +:+ "/" +:+ trimSlash (RouteSpec.Path r).

(** The text [domain/path] of a route, letter for letter. *)
Definition literalRoute (r : RouteSpec.t) : string :=
  RouteSpec.Domain r +:+ "/" +:+ RouteSpec.Path r.

(** The mounts the volume-preparation container adds to the two auxiliary
    ones: the code volume at [/mnt/code] when there are code mounts not
    marked read-only, the media volume at [/mnt/media] likewise, each at the
    content sub-path of its source. *)
Definition writableCodeMount wp : list VolumeMount.t :=
  match WordpressSpec.CodeVolumeSpec_ (Wordpress.Spec wp) with
  | Some code =>
      if hasCodeMounts wp && negb (CodeVolumeSpec.ReadOnly code)
      then [ {| VolumeMount.Name := codeVolumeName;
                VolumeMount.ReadOnly := false;
                VolumeMount.MountPath := "/mnt/code";
                VolumeMount.SubPath := CodeVolumeSpec.ContentSubPath code |} ]
      else []
  | None => []
  end.

Definition writableMediaMount wp : list VolumeMount.t :=
  match WordpressSpec.MediaVolumeSpec_ (Wordpress.Spec wp) with
  | Some media =>
      if hasMediaMounts wp && negb (MediaVolumeSpec.ReadOnly media)
      then [ {| VolumeMount.Name := mediaVolumeName;
                VolumeMount.ReadOnly := false;
                VolumeMount.MountPath := "/mnt/media";
                VolumeMount.SubPath := MediaVolumeSpec.ContentSubPath media |} ]
      else []
  | None => []
  end.

(** The two mounts of the auxiliary volumes in the volume-preparation
    container. *)
Definition auxMounts : list VolumeMount.t :=
  [ {| VolumeMount.Name := knativeInternalVolume;
       VolumeMount.ReadOnly := false;
       VolumeMount.MountPath := knativeInternalMountPath;
       VolumeMount.SubPath := "" |};
    {| VolumeMount.Name := knativeVarLogVolume;
       VolumeMount.ReadOnly := false;
       VolumeMount.MountPath := knativeVarLogMountPath;
       VolumeMount.SubPath := "" |} ].

(** A mount names one of the volumes of the pod. *)
Definition resolves wp (m : VolumeMount.t) : Prop :=
  exists v, v ∈ volumes wp /\ Volume.Name v = VolumeMount.Name m.

(** The names a media-derived variable can have. *)
Definition mediaEnvNames : list string :=
  [ "STACK_MEDIA_BUCKET";
    "AWS_ACCESS_KEY_ID"; "AWS_SECRET_ACCESS_KEY"; "AWS_CONFIG_FILE"; "S3_ENDPOINT";
    "GOOGLE_CREDENTIALS"; "GOOGLE_APPLICATION_CREDENTIALS" ].

(** The credentials of the backends of a media source, S3 first. *)
Definition backendCredentials (media : MediaVolumeSpec.t) : list EnvVar.t :=
  from_option BucketVolumeSource.Env [] (MediaVolumeSpec.S3VolumeSource media)
  ++ from_option BucketVolumeSource.Env [] (MediaVolumeSpec.GCSVolumeSource media).

(** The number of variables of a list named [name]. *)
Definition varsNamed (name : string) (vars : list EnvVar.t) : nat :=
  length (filter (fun e => EnvVar.Name e = name) vars).

End MoreNotions.

Module MoreSamples.

(** A media source, marked read-only, with the claim and the host-path
    variants both set and a content sub-path. *)
Definition claimMedia : MediaVolumeSpec.t :=
  {| MediaVolumeSpec.ReadOnly := true;
     MediaVolumeSpec.MountPath := "/app/web/wp-content/uploads";
     MediaVolumeSpec.ContentSubPath := "uploads";
     MediaVolumeSpec.S3VolumeSource := None;
     MediaVolumeSpec.GCSVolumeSource := None;
     MediaVolumeSpec.PersistentVolumeClaim :=
       Some {| PersistentVolumeClaimSpec.AccessModes := ["ReadWriteMany"];
               PersistentVolumeClaimSpec.StorageClassName := None;
               PersistentVolumeClaimSpec.Storage := "10Gi" |};
     MediaVolumeSpec.HostPath :=
       Some {| HostPathVolumeSource.Path := "/srv/media";
               HostPathVolumeSource.Type_ := None |};
     MediaVolumeSpec.EmptyDir := None |}.

(** The git code source, the read-only claim media source and a
    bootstrap. *)
Definition fullSite : Wordpress.t :=
  Sample.site (Some Sample.gitCode) (Some claimMedia) (Some Sample.bootstrap)
    [] [] [] None None.

(** The same resource with a mount of the caller that names no volume of
    the pod. *)
Definition danglingMountSite : Wordpress.t :=
  Sample.site (Some Sample.gitCode) (Some claimMedia) (Some Sample.bootstrap)
    [ {| VolumeMount.Name := "nowhere";
         VolumeMount.ReadOnly := false;
         VolumeMount.MountPath := "/mnt/nowhere";
         VolumeMount.SubPath := "" |} ]
    [] [] None None.

(** A route whose path climbs out of its domain. *)
Definition traversalSite : Wordpress.t :=
  Sample.site None None None []
    [ {| RouteSpec.Domain := "shop.example.com";
         RouteSpec.Path := "../admin.example.com" |} ]
    [] None None.

(** A media source with the S3 backend and an emptyDir mount source. *)
Definition s3EmptyDirSite : Wordpress.t :=
  Sample.site None
    (Some (Sample.mediaOf (Some Sample.s3Bucket) None (Some EmptyDirVolumeSource.zero)))
    None [] [] [] None None.

(** A git code source with no ref. *)
Definition noRefCode : CodeVolumeSpec.t :=
  {| CodeVolumeSpec.ReadOnly := false;
     CodeVolumeSpec.MountPath := "/app/web/wp-content";
     CodeVolumeSpec.ContentSubPath := "";
     CodeVolumeSpec.ConfigSubPath := "config";
     CodeVolumeSpec.GitDir :=
       Some {| GitVolumeSource.Repository := "https://example/repo.git";
               GitVolumeSource.GitRef := "";
               GitVolumeSource.Env := [ EnvVar.lit "SSH_RSA_PRIVATE_KEY" "key" ];
               GitVolumeSource.EnvFrom := [];
               GitVolumeSource.EmptyDir := None |};
     CodeVolumeSpec.PersistentVolumeClaim := None;
     CodeVolumeSpec.HostPath := None;
     CodeVolumeSpec.EmptyDir := None |}.

Definition noRefSite : Wordpress.t :=
  Sample.site (Some noRefCode) None None [] [] [] None None.

(** A resource with pod metadata whose labels clash with the labels of the
    web pods. *)
Definition labelledSite : Wordpress.t :=
  {| Wordpress.Name := "site";
     Wordpress.Namespace := "default";
     Wordpress.Spec :=
       {| WordpressSpec.Image := "docker.io/bitpoke/wordpress-runtime:5.8";
          WordpressSpec.ImagePullPolicy := "Always";
          WordpressSpec.ImagePullSecrets := [ {| LocalObjectReference.Name := "regcred" |} ];
          WordpressSpec.ServiceAccountName := "wp";
          WordpressSpec.Routes := [];
          WordpressSpec.WordpressPathPrefix := "wp";
          WordpressSpec.CodeVolumeSpec_ := None;
          WordpressSpec.MediaVolumeSpec_ := None;
          WordpressSpec.WordpressBootstrapSpec_ := None;
          WordpressSpec.Env := [];
          WordpressSpec.EnvFrom := [];
          WordpressSpec.Volumes := [];
          WordpressSpec.VolumeMounts := [];
          WordpressSpec.InitContainers := [];
          WordpressSpec.Sidecars := [];
          WordpressSpec.Resources :=
            {| ResourceRequirements.Limits := {[ "memory" := "1Gi" ]};
               ResourceRequirements.Requests := ∅ |};
          WordpressSpec.ReadinessProbe := None;
          WordpressSpec.LivenessProbe := None;
          WordpressSpec.NodeSelector := {[ "disk" := "ssd" ]};
          WordpressSpec.Tolerations := [];
          WordpressSpec.Affinity_ := None;
          WordpressSpec.PriorityClassName := "high";
          WordpressSpec.PodMetadata :=
            Some {| ObjectMeta.Name := "";
                    ObjectMeta.Namespace := "";
                    ObjectMeta.Labels :=
                      {[ "app.kubernetes.io/component" := "mine"; "team" := "blog" ]};
                    ObjectMeta.Annotations := {[ "note" := "kept" ]} |} |} |}.

End MoreSamples.

(** ** Properties *)

Section Properties.
Context `{X : Externals}.

Implicit Types wp : Wordpress.t.

(** *** The Go idioms *)

Lemma notnil_true {A : Type} (p : option A) :
  Go.notnil p = true <-> exists a, p = Some a.
Proof.
  destruct p as [a|]; simpl; split; intros H; try done; [by exists a|].
  by destruct H.
Qed.

Lemma notnil_false {A : Type} (p : option A) :
  Go.notnil p = false <-> p = None.
Proof. destruct p; simpl; split; congruence. Qed.

(** A loop that appends while it ranges over a slice appends the image of
    the slice. *)
Lemma foldl_remapEnv table out envs :
  foldl (remapEnv table) out envs
  = out ++ omap (fun e => (fun name => EnvVar.rename name e) <$> table !! EnvVar.Name e) envs.
Proof.
  revert out. induction envs as [|e envs IH]; intros out; simpl.
  - by rewrite app_nil_r.
  - rewrite IH. unfold remapEnv.
    destruct (table !! EnvVar.Name e) as [name|]; simpl; [|done].
    by rewrite <- app_assoc.
Qed.

(** A slice filled by index over its whole length is the image of the
    slice it ranges over. *)
Lemma fill_by_index {A B : Type} (f : A -> B) (d : B) (pre : list B) (l : list A) :
  foldl (fun out ir => <[ir.1 := f ir.2]> out) (pre ++ replicate (length l) d)
        (imap (fun i r => (length pre + i, r)) l)
  = pre ++ map f l.
Proof.
  revert pre. induction l as [|a l IH]; intros pre; simpl.
  - done.
  - rewrite Nat.add_0_r.
    replace (<[length pre:=f a]> (pre ++ d :: replicate (length l) d))
      with ((pre ++ [f a]) ++ replicate (length l) d).
    + rewrite (imap_ext _ (fun i r => (length (pre ++ [f a]) + i, r))).
      * rewrite IH. by rewrite <- app_assoc.
      * intros i r _. simpl. rewrite length_app. simpl. f_equal. lia.
    + rewrite <- app_assoc. simpl.
      rewrite insert_app_r_alt by lia. by rewrite Nat.sub_diag.
Qed.

(** *** The predicates on the sources *)


Lemma hasCodeMounts_Some wp :
  hasCodeMounts wp = true ->
  exists code, WordpressSpec.CodeVolumeSpec_ (Wordpress.Spec wp) = Some code.
Proof.
  unfold hasCodeMounts. destruct (WordpressSpec.CodeVolumeSpec_ _); [eauto|done].
Qed.

Lemma hasMediaMounts_Some wp :
  hasMediaMounts wp = true ->
  exists media, WordpressSpec.MediaVolumeSpec_ (Wordpress.Spec wp) = Some media.
Proof.
  unfold hasMediaMounts. destruct (WordpressSpec.MediaVolumeSpec_ _); [eauto|done].
Qed.

Lemma hasGitDir_hasCodeMounts wp : hasGitDir wp = true -> hasCodeMounts wp = true.
Proof.
  unfold hasGitDir, hasCodeMounts.
  destruct (WordpressSpec.CodeVolumeSpec_ _) as [code|]; [|done].
  by destruct (CodeVolumeSpec.GitDir code).
Qed.

Lemma backendOnly_hasMediaMounts wp :
  backendOnly wp = true -> hasMediaMounts wp = false.
Proof.
  unfold backendOnly, hasMediaMounts.
  destruct (WordpressSpec.MediaVolumeSpec_ _) as [media|]; [|done].
  destruct (MediaVolumeSpec.PersistentVolumeClaim media),
    (MediaVolumeSpec.HostPath media), (MediaVolumeSpec.EmptyDir media); simpl;
    rewrite ?andb_false_r; simpl; congruence.
Qed.

(** *** Environment *)

Lemma mediaEnv_segments wp :
  mediaEnv wp =
  match WordpressSpec.MediaVolumeSpec_ (Wordpress.Spec wp) with
  | None => []
  | Some media =>
      backendEnv s3Prefix s3EnvVars (MediaVolumeSpec.S3VolumeSource media)
      ++ backendEnv gcsPrefix gcsEnvVars (MediaVolumeSpec.GCSVolumeSource media)
  end.
Proof.
  unfold mediaEnv.
  destruct (WordpressSpec.MediaVolumeSpec_ _) as [media|]; [|done].
  destruct (MediaVolumeSpec.S3VolumeSource media) as [s3|],
    (MediaVolumeSpec.GCSVolumeSource media) as [gcs|]; simpl;
    rewrite ?foldl_remapEnv, ?app_nil_r; simpl; try done.
  by rewrite <- app_assoc.
Qed.

Lemma routes_eq wp :
  routes wp =
  match WordpressSpec.Routes (Wordpress.Spec wp) with
  | [] => [MainDomain wp]
  | rs => map (fun r => Go.path_Join [RouteSpec.Domain r; RouteSpec.Path r]) rs
  end.
Proof.
  unfold routes.
  destruct (WordpressSpec.Routes _) as [|r rs] eqn:E; [done|].
  change (length (r :: rs) =? 0)%nat with false. cbv iota.
  apply (fill_by_index
           (fun r => Go.path_Join [RouteSpec.Domain r; RouteSpec.Path r]) "" []).
Qed.

(** *** Mounts and volumes *)

Lemma volumeMounts_eq wp :
  volumeMounts wp =
  Some (logMount :: WordpressSpec.VolumeMounts (Wordpress.Spec wp)
          ++ codeMountsOf wp ++ mediaMountsOf wp).
Proof.
  unfold volumeMounts, codeMountsOf, mediaMountsOf.
  destruct (hasCodeMounts wp) eqn:Hc.
  - destruct (hasCodeMounts_Some wp Hc) as [code ->]. simpl.
    destruct (hasMediaMounts wp) eqn:Hm.
    + destruct (hasMediaMounts_Some wp Hm) as [media ->]. simpl.
      f_equal. unfold logMount. f_equal. rewrite <- !app_assoc. simpl.
      do 5 f_equal. unfold mediaMount.
      destruct (String.eqb_spec (MediaVolumeSpec.ContentSubPath media) "") as [->|]; done.
    + simpl. f_equal. unfold logMount. f_equal. rewrite <- !app_assoc. simpl.
      by destruct (WordpressSpec.MediaVolumeSpec_ _).
  - simpl. destruct (hasMediaMounts wp) eqn:Hm.
    + destruct (hasMediaMounts_Some wp Hm) as [media ->]. simpl.
      f_equal. unfold logMount. f_equal.
      destruct (WordpressSpec.CodeVolumeSpec_ _); simpl; f_equal; f_equal;
        unfold mediaMount;
        destruct (String.eqb_spec (MediaVolumeSpec.ContentSubPath media) "") as [->|]; done.
    + simpl. f_equal. unfold logMount. f_equal.
      destruct (WordpressSpec.CodeVolumeSpec_ _), (WordpressSpec.MediaVolumeSpec_ _);
        by rewrite ?app_nil_r.
Qed.

Lemma volumes_eq wp :
  volumes wp =
  auxVolumes ++ WordpressSpec.Volumes (Wordpress.Spec wp)
    ++ (if hasCodeMounts wp then [codeVolume wp] else [])
    ++ (if hasMediaMounts wp then [mediaVolume wp] else []).
Proof.
  unfold volumes, auxVolumes.
  destruct (hasCodeMounts wp), (hasMediaMounts wp); simpl;
    rewrite <- ?app_assoc, ?app_nil_r; done.
Qed.

(** *** Init containers *)

Lemma prepareVolumesContainer_total wp :
  exists c, prepareVolumesContainer wp = Some c
            /\ Container.Name c = "prepare-volumes".
Proof.
  unfold prepareVolumesContainer.
  destruct (hasCodeMounts wp) eqn:Hc.
  - destruct (hasCodeMounts_Some wp Hc) as [code ->]. simpl.
    destruct (hasMediaMounts wp) eqn:Hm.
    + destruct (hasMediaMounts_Some wp Hm) as [media ->]. simpl.
      destruct (CodeVolumeSpec.ReadOnly code), (MediaVolumeSpec.ReadOnly media);
        simpl; eauto.
    + destruct (CodeVolumeSpec.ReadOnly code); simpl; eauto.
  - simpl. destruct (hasMediaMounts wp) eqn:Hm.
    + destruct (hasMediaMounts_Some wp Hm) as [media ->]. simpl.
      destruct (MediaVolumeSpec.ReadOnly media); simpl; eauto.
    + simpl; eauto.
Qed.

Lemma gitCloneContainer_total wp :
  hasGitDir wp = true ->
  exists c, gitCloneContainer wp = Some c /\ Container.Name c = "git".
Proof.
  unfold hasGitDir, gitCloneContainer, gitCloneEnv.
  destruct (WordpressSpec.CodeVolumeSpec_ _) as [code|]; [|done]. simpl.
  destruct (CodeVolumeSpec.GitDir code) as [git|]; [|done].
  intros _. simpl. eexists. split; reflexivity.
Qed.

Lemma installWPContainer_total wp :
  match WordpressSpec.WordpressBootstrapSpec_ (Wordpress.Spec wp) with
  | Some _ => exists c, installWPContainer wp = Some [c]
                        /\ Container.Name c = "install-wp"
  | None => installWPContainer wp = Some []
  end.
Proof.
  unfold installWPContainer.
  destruct (WordpressSpec.WordpressBootstrapSpec_ _); [|done].
  rewrite volumeMounts_eq. simpl. eauto.
Qed.

Lemma initContainers_eq wp :
  initContainers wp =
  Some (prepareStep wp ++ WordpressSpec.InitContainers (Wordpress.Spec wp)
          ++ gitStep wp ++ installStep wp).
Proof.
  unfold initContainers, prepareStep, gitStep, installStep.
  assert (exists l, installWPContainer wp = Some l) as [l ->].
  { pose proof (installWPContainer_total wp) as H.
    destruct (WordpressSpec.WordpressBootstrapSpec_ _); [|eauto].
    destruct H as (c & -> & _); eauto. }
  destruct (prepareVolumesContainer_total wp) as (p & -> & _).
  destruct (hasGitDir wp) eqn:Hg.
  - destruct (gitCloneContainer_total wp Hg) as (g & -> & _).
    destruct (hasMediaMounts wp || hasCodeMounts wp); simpl;
      by rewrite <- ?app_assoc.
  - destruct (hasMediaMounts wp || hasCodeMounts wp); simpl;
      by rewrite <- ?app_assoc, ?app_nil_r.
Qed.

(** *** Merging labels *)

Lemma foldl_insert_union (l : list (string * string)) (acc : gmap string string) :
  NoDup l.*1 ->
  foldl (fun m kv => <[kv.1 := kv.2]> m) acc l = list_to_map l ∪ acc.
Proof.
  revert acc. induction l as [|[k v] l IH]; intros acc Hnd; simpl.
  - by rewrite (left_id_L ∅ (∪)).
  - apply NoDup_cons in Hnd as [Hk Hnd]. rewrite IH by done.
    rewrite <- insert_union_l. rewrite <- insert_union_r; [done|].
    by apply not_elem_of_list_to_map_1.
Qed.

Lemma range_list_to_map (o : MapOrder) (m : gmap string string) :
  NoDup (range o m).*1 /\ list_to_map (range o m) = m.
Proof.
  pose proof (range_perm o m) as Hp.
  assert (NoDup (range o m).*1) as Hnd.
  { rewrite Hp. apply NoDup_fst_map_to_list. }
  split; [done|].
  rewrite <- (list_to_map_to_list m) at 2.
  by apply list_to_map_proper.
Qed.

(** Whatever the orders of iteration, the merge is the union in which the
    second map wins. *)
Lemma labels_Merge_union (o1 o2 : MapOrder) (labels1 labels2 : gmap string string) :
  labels_Merge o1 o2 labels1 labels2 = labels2 ∪ labels1.
Proof.
  unfold labels_Merge.
  destruct (range_list_to_map o1 labels1) as [Hnd1 H1].
  destruct (range_list_to_map o2 labels2) as [Hnd2 H2].
  rewrite !foldl_insert_union by done.
  by rewrite H1, H2, (right_id_L ∅ (∪)).
Qed.

(** *** The two templates *)

Lemma WebPodTemplateSpec_shape (o1 o2 : MapOrder) wp :
  exists t main inits mounts,
    WebPodTemplateSpec o1 o2 wp = Some t
    /\ initContainers wp = Some inits
    /\ volumeMounts wp = Some mounts
    /\ PodSpec.Containers (PodTemplateSpec.Spec t)
       = main :: WordpressSpec.Sidecars (Wordpress.Spec wp)
    /\ mainContainer t = Some main
    /\ Container.Name main = "wordpress"
    /\ Container.Env main = env wp
    /\ Container.EnvFrom main = envFrom wp
    /\ Container.VolumeMounts main = mounts
    /\ Container.ReadinessProbe main = Some (readinessProbe wp)
    /\ Container.LivenessProbe main = Some (livenessProbe wp)
    /\ PodSpec.InitContainers (PodTemplateSpec.Spec t) = inits
    /\ PodSpec.Volumes (PodTemplateSpec.Spec t) = volumes wp.
Proof.
  unfold WebPodTemplateSpec. rewrite initContainers_eq, volumeMounts_eq. simpl.
  do 4 eexists. repeat split; reflexivity.
Qed.

Lemma JobPodTemplateSpec_shape (o1 o2 : MapOrder) wp (cmd : list string) :
  exists t main inits mounts,
    JobPodTemplateSpec o1 o2 wp cmd = Some t
    /\ initContainers wp = Some inits
    /\ volumeMounts wp = Some mounts
    /\ PodSpec.Containers (PodTemplateSpec.Spec t)
       = main :: WordpressSpec.Sidecars (Wordpress.Spec wp)
    /\ mainContainer t = Some main
    /\ Container.Name main = "wp-cli"
    /\ Container.Args main = cmd
    /\ Container.Env main = env wp
    /\ Container.EnvFrom main = envFrom wp
    /\ Container.VolumeMounts main = mounts
    /\ PodSpec.InitContainers (PodTemplateSpec.Spec t) = inits
    /\ PodSpec.Volumes (PodTemplateSpec.Spec t) = volumes wp.
Proof.
  unfold JobPodTemplateSpec. rewrite initContainers_eq, volumeMounts_eq. simpl.
  do 4 eexists. repeat split; reflexivity.
Qed.

(** *** The claims *)

(** C1, as amended.  When the media source has a backend descriptor (S3 or
    GCS) and no mount source (no claim, no host path, no emptyDir), no media
    mount source is materialized: [hasMediaMounts] is false, the volume list
    is the two auxiliary volumes, the volumes of the caller and the code
    volume when there are code mounts, with no media volume after them, and
    the mount list of the main process is the log mount, the mounts of the
    caller and the code mounts, with no media mount after them.  The
    ephemeral default of [mediaVolume] is what that function returns, but
    [volumes] does not call it. *)
Theorem C1_backend_only_adds_no_media_volume wp :
  backendOnly wp = true ->
  hasMediaMounts wp = false
  /\ volumes wp =
     auxVolumes ++ WordpressSpec.Volumes (Wordpress.Spec wp)
       ++ (if hasCodeMounts wp then [codeVolume wp] else [])
  /\ volumeMounts wp =
     Some (logMount :: WordpressSpec.VolumeMounts (Wordpress.Spec wp) ++ codeMountsOf wp)
  /\ mediaVolume wp = emptyDirVolume mediaVolumeName EmptyDirVolumeSource.zero
  /\ (forall o1 o2, exists t main,
        WebPodTemplateSpec o1 o2 wp = Some t
        /\ mainContainer t = Some main
        /\ Container.VolumeMounts main =
           logMount :: WordpressSpec.VolumeMounts (Wordpress.Spec wp) ++ codeMountsOf wp
        /\ PodSpec.Volumes (PodTemplateSpec.Spec t) =
           auxVolumes ++ WordpressSpec.Volumes (Wordpress.Spec wp)
             ++ (if hasCodeMounts wp then [codeVolume wp] else [])).
Proof.
  intros Hb. pose proof (backendOnly_hasMediaMounts wp Hb) as Hm.
  assert (mediaMountsOf wp = []) as Hmm.
  { unfold mediaMountsOf. rewrite Hm. by destruct (WordpressSpec.MediaVolumeSpec_ _). }
  assert (volumes wp =
          auxVolumes ++ WordpressSpec.Volumes (Wordpress.Spec wp)
            ++ (if hasCodeMounts wp then [codeVolume wp] else [])) as Hv.
  { rewrite volumes_eq, Hm. by rewrite app_nil_r. }
  assert (volumeMounts wp =
          Some (logMount :: WordpressSpec.VolumeMounts (Wordpress.Spec wp)
                  ++ codeMountsOf wp)) as Hvm.
  { rewrite volumeMounts_eq, Hmm. by rewrite app_nil_r. }
  split; [done|]. split; [done|]. split; [done|]. split.
  - unfold backendOnly in Hb. unfold mediaVolume.
    destruct (WordpressSpec.MediaVolumeSpec_ _) as [media|]; [|done].
    destruct (MediaVolumeSpec.PersistentVolumeClaim media),
      (MediaVolumeSpec.HostPath media), (MediaVolumeSpec.EmptyDir media);
      simpl in Hb; rewrite ?andb_false_r in Hb; simpl in Hb; congruence.
  - intros o1 o2.
    destruct (WebPodTemplateSpec_shape o1 o2 wp)
      as (t & main & inits & mounts & Ht & _ & Hmo & _ & Hmain & _ & _ & _ & Hvms & _ & _ & _ & Hvol).
    exists t, main. rewrite Hvm in Hmo. injection Hmo as <-.
    by rewrite <- Hv, <- Hvol.
Qed.

(** C2.  The init containers are, in this order, the volume-preparation
    step (there iff there are code or media mounts), the init containers of
    the caller as given, the git step (there iff the git variant of the code
    source is set) and the install step (there iff a bootstrap is set).
    With the git variant the preparation step is first, the git step comes
    right after the containers of the caller and the install step, if any,
    right after the git step. *)
Theorem C2_init_containers_order wp :
  initContainers wp =
    Some (prepareStep wp ++ WordpressSpec.InitContainers (Wordpress.Spec wp)
            ++ gitStep wp ++ installStep wp)
  /\ length (prepareStep wp) = (if hasCodeMounts wp || hasMediaMounts wp then 1 else 0)
  /\ Forall (fun c => Container.Name c = "prepare-volumes") (prepareStep wp)
  /\ length (gitStep wp) = (if hasGitDir wp then 1 else 0)
  /\ Forall (fun c => Container.Name c = "git") (gitStep wp)
  /\ length (installStep wp) =
     (if Go.notnil (WordpressSpec.WordpressBootstrapSpec_ (Wordpress.Spec wp))
      then 1 else 0)
  /\ Forall (fun c => Container.Name c = "install-wp") (installStep wp)
  /\ (hasGitDir wp = true ->
      exists inits p g,
        initContainers wp = Some inits
        /\ prepareVolumesContainer wp = Some p
        /\ gitCloneContainer wp = Some g
        /\ inits !! 0 = Some p
        /\ inits !! (1 + length (WordpressSpec.InitContainers (Wordpress.Spec wp)))
           = Some g
        /\ (forall i, installWPContainer wp = Some [i] ->
            inits !! (2 + length (WordpressSpec.InitContainers (Wordpress.Spec wp)))
            = Some i)).
Proof.
  destruct (prepareVolumesContainer_total wp) as (p & Hp & Hpn).
  pose proof (installWPContainer_total wp) as Hi.
  split; [apply initContainers_eq|].
  split.
  { unfold prepareStep. rewrite orb_comm, Hp. by destruct (_ || _). }
  split.
  { unfold prepareStep. rewrite Hp. destruct (_ || _); simpl; auto. }
  split.
  { unfold gitStep. destruct (hasGitDir wp) eqn:Hg; [|done].
    by destruct (gitCloneContainer_total wp Hg) as (g & -> & _). }
  split.
  { unfold gitStep. destruct (hasGitDir wp) eqn:Hg; [|done].
    destruct (gitCloneContainer_total wp Hg) as (g & -> & Hgn). simpl. auto. }
  split.
  { unfold installStep.
    destruct (WordpressSpec.WordpressBootstrapSpec_ _); simpl in *.
    - by destruct Hi as (c & -> & _).
    - by rewrite Hi. }
  split.
  { unfold installStep.
    destruct (WordpressSpec.WordpressBootstrapSpec_ _); simpl in *.
    - destruct Hi as (c & -> & Hc). simpl. auto.
    - rewrite Hi. simpl. auto. }
  intros Hg.
  destruct (gitCloneContainer_total wp Hg) as (g & Hgc & _).
  eexists _, p, g. split; [apply initContainers_eq|].
  split; [done|]. split; [done|].
  unfold prepareStep, gitStep.
  rewrite (hasGitDir_hasCodeMounts wp Hg), orb_true_r, Hg, Hp, Hgc. simpl.
  split; [done|]. split.
  - rewrite lookup_app_r by lia. by rewrite Nat.sub_diag.
  - intros i Hinst. unfold installStep. rewrite Hinst. simpl.
    rewrite lookup_app_r by lia.
    replace (S (length _) - length _) with 1 by lia. done.
Qed.

(** C3.  The environment of the main process is the six built-in variables
    (home URL, site URL, core directory, routes, site name, site namespace,
    in this order), then the variables of the caller in the order given,
    then the media-derived ones.  Nothing is dropped or replaced: the length
    is the sum of the three lengths, and the variable of the caller at index
    [i] is the entry at index [6 + i], whatever its name. *)
Theorem C3_env_builtins_then_user_then_media wp :
  env wp =
    [ EnvVar.lit "WP_HOME" (HomeURL wp);
      EnvVar.lit "WP_SITEURL" (SiteURL wp);
      EnvVar.lit "WP_CORE_DIRECTORY"
        (WordpressSpec.WordpressPathPrefix (Wordpress.Spec wp));
      EnvVar.lit "STACK_ROUTES" (Go.strings_Join (routes wp) ",");
      EnvVar.lit "STACK_SITE_NAME" (Wordpress.Name wp);
      EnvVar.lit "STACK_SITE_NAMESPACE" (Wordpress.Namespace wp) ]
    ++ WordpressSpec.Env (Wordpress.Spec wp) ++ mediaEnv wp
  /\ length (env wp) =
     6 + length (WordpressSpec.Env (Wordpress.Spec wp)) + length (mediaEnv wp)
  /\ (forall i e, WordpressSpec.Env (Wordpress.Spec wp) !! i = Some e ->
                  env wp !! (6 + i) = Some e)
  /\ (forall o1 o2, exists t main,
        WebPodTemplateSpec o1 o2 wp = Some t
        /\ mainContainer t = Some main
        /\ Container.Env main = env wp).
Proof.
  assert (env wp =
    [ EnvVar.lit "WP_HOME" (HomeURL wp);
      EnvVar.lit "WP_SITEURL" (SiteURL wp);
      EnvVar.lit "WP_CORE_DIRECTORY"
        (WordpressSpec.WordpressPathPrefix (Wordpress.Spec wp));
      EnvVar.lit "STACK_ROUTES" (Go.strings_Join (routes wp) ",");
      EnvVar.lit "STACK_SITE_NAME" (Wordpress.Name wp);
      EnvVar.lit "STACK_SITE_NAMESPACE" (Wordpress.Namespace wp) ]
    ++ WordpressSpec.Env (Wordpress.Spec wp) ++ mediaEnv wp) as Henv.
  { unfold env. by rewrite <- app_assoc. }
  split; [done|]. split; [|split].
  - rewrite Henv, !length_app. simpl. lia.
  - intros i e Hi. rewrite Henv.
    rewrite lookup_app_r by (simpl; lia).
    replace (6 + i - length _) with i by (simpl; lia).
    by apply lookup_app_l_Some.
  - intros o1 o2.
    destruct (WebPodTemplateSpec_shape o1 o2 wp)
      as (t & main & inits & mounts & Ht & _ & _ & _ & Hmain & _ & He & _).
    eauto.
Qed.


(** The fourth built-in variable of the main process is [STACK_ROUTES]:
    the main domain with no route, else [path.Join] of the domain and the
    path of each route, in the order of the routes, joined by commas. *)
Lemma env_stack_routes wp :
  env wp !! 3 =
    Some (EnvVar.lit "STACK_ROUTES"
            match WordpressSpec.Routes (Wordpress.Spec wp) with
            | [] => MainDomain wp
            | rs =>
                String.concat ","
                  (map (fun r => Go.path_Join [RouteSpec.Domain r; RouteSpec.Path r]) rs)
            end)
  /\ (forall o1 o2, exists t main,
        WebPodTemplateSpec o1 o2 wp = Some t
        /\ mainContainer t = Some main
        /\ Container.Env main = env wp).
Proof.
  split.
  - unfold env. simpl. rewrite routes_eq. unfold Go.strings_Join.
    by destruct (WordpressSpec.Routes _).
  - intros o1 o2.
    destruct (WebPodTemplateSpec_shape o1 o2 wp)
      as (t & main & inits & mounts & Ht & _ & _ & _ & Hmain & _ & He & _).
    eauto.
Qed.

(** The keys of the two tables and the names they give. *)
Lemma s3EnvVars_table (name target : string) :
  s3EnvVars !! name = Some target <->
  (name, target) ∈ [ ("AWS_ACCESS_KEY_ID", "AWS_ACCESS_KEY_ID");
                     ("AWS_SECRET_ACCESS_KEY", "AWS_SECRET_ACCESS_KEY");
                     ("AWS_CONFIG_FILE", "AWS_CONFIG_FILE");
                     ("ENDPOINT", "S3_ENDPOINT") ].
Proof.
  unfold s3EnvVars. rewrite <- elem_of_list_to_map; [done|].
  compute_done.
Qed.

Lemma gcsEnvVars_table (name target : string) :
  gcsEnvVars !! name = Some target <->
  (name, target) ∈ [ ("GOOGLE_CREDENTIALS", "GOOGLE_CREDENTIALS");
                     ("GOOGLE_APPLICATION_CREDENTIALS", "GOOGLE_APPLICATION_CREDENTIALS") ].
Proof.
  unfold gcsEnvVars. rewrite <- elem_of_list_to_map; [done|].
  compute_done.
Qed.

(** C6, as amended.  The media-derived environment is the block of the S3
    backend followed by the block of the GCS backend, each empty when its
    descriptor is unset.  A block starts with the bucket variable, of value
    the scheme ([s3], resp. [gs]), [://] and the joined bucket and path
    prefix, and goes on with the credentials of the backend whose name is a
    key of the table of the backend, renamed to the name the table gives,
    in their order; the others are dropped.  So the environment starts with
    the [s3] bucket variable when the S3 descriptor is set, and with the
    [gs] one when only the GCS descriptor is. *)
Theorem C6_media_env_blocks wp media :
  WordpressSpec.MediaVolumeSpec_ (Wordpress.Spec wp) = Some media ->
  mediaEnv wp =
    backendEnv s3Prefix s3EnvVars (MediaVolumeSpec.S3VolumeSource media)
    ++ backendEnv gcsPrefix gcsEnvVars (MediaVolumeSpec.GCSVolumeSource media)
  /\ (forall s3, MediaVolumeSpec.S3VolumeSource media = Some s3 ->
        startsWithBucket "s3" s3 (mediaEnv wp))
  /\ (forall gcs, MediaVolumeSpec.S3VolumeSource media = None ->
        MediaVolumeSpec.GCSVolumeSource media = Some gcs ->
        startsWithBucket "gs" gcs (mediaEnv wp))
  /\ (forall prefix table b e,
        e ∈ BucketVolumeSource.Env b ->
        (exists target, table !! EnvVar.Name e = Some target
                        /\ EnvVar.rename target e ∈ backendEnv prefix table (Some b))
        \/ (table !! EnvVar.Name e = None))
  /\ (forall prefix table b v,
        v ∈ backendEnv prefix table (Some b) ->
        v = EnvVar.lit "STACK_MEDIA_BUCKET"
              (prefix +:+ "://" +:+
               Go.path_Join [BucketVolumeSource.Bucket b; BucketVolumeSource.PathPrefix b])
        \/ exists e target, e ∈ BucketVolumeSource.Env b
                            /\ table !! EnvVar.Name e = Some target
                            /\ v = EnvVar.rename target e)
  /\ (forall name target,
        s3EnvVars !! name = Some target <->
        (name, target) ∈ [ ("AWS_ACCESS_KEY_ID", "AWS_ACCESS_KEY_ID");
                           ("AWS_SECRET_ACCESS_KEY", "AWS_SECRET_ACCESS_KEY");
                           ("AWS_CONFIG_FILE", "AWS_CONFIG_FILE");
                           ("ENDPOINT", "S3_ENDPOINT") ])
  /\ (forall name target,
        gcsEnvVars !! name = Some target <->
        (name, target) ∈ [ ("GOOGLE_CREDENTIALS", "GOOGLE_CREDENTIALS");
                           ("GOOGLE_APPLICATION_CREDENTIALS",
                            "GOOGLE_APPLICATION_CREDENTIALS") ]).
Proof.
  intros Hmedia.
  assert (mediaEnv wp =
    backendEnv s3Prefix s3EnvVars (MediaVolumeSpec.S3VolumeSource media)
    ++ backendEnv gcsPrefix gcsEnvVars (MediaVolumeSpec.GCSVolumeSource media)) as Hseg.
  { by rewrite mediaEnv_segments, Hmedia. }
  split; [done|]. split; [|split; [|split; [|split; [|split]]]].
  - intros s3 Hs3. unfold startsWithBucket. by rewrite Hseg, Hs3.
  - intros gcs Hs3 Hgcs. unfold startsWithBucket. by rewrite Hseg, Hs3, Hgcs.
  - intros prefix table b e He.
    destruct (table !! EnvVar.Name e) as [target|] eqn:Ht; [left|by right].
    exists target. split; [done|]. simpl. apply elem_of_cons. right.
    apply list_elem_of_omap. exists e. by rewrite Ht.
  - intros prefix table b v Hv. simpl in Hv.
    apply elem_of_cons in Hv as [->|Hv]; [by left|right].
    apply list_elem_of_omap in Hv as (e & He & Hv).
    destruct (table !! EnvVar.Name e) as [target|] eqn:Ht; [|done].
    simpl in Hv. injection Hv as <-. eauto.
  - apply s3EnvVars_table.
  - apply gcsEnvVars_table.
Qed.

(** C7.  A readiness or liveness probe of the caller is returned as it is.
    With none, the readiness probe is an HTTP GET of [/] on port 8080 with
    the header [Host] set to the main domain, and the liveness probe an HTTP
    GET on the same port of [/-/php-ping], another path, with no header;
    both have failure threshold 3, initial delay 10, period 5, success
    threshold 1 and timeout 30. *)
Theorem C7_probes wp :
  (forall probe, WordpressSpec.ReadinessProbe (Wordpress.Spec wp) = Some probe ->
                 readinessProbe wp = probe)
  /\ (forall probe, WordpressSpec.LivenessProbe (Wordpress.Spec wp) = Some probe ->
                    livenessProbe wp = probe)
  /\ (WordpressSpec.ReadinessProbe (Wordpress.Spec wp) = None ->
      readinessProbe wp =
      {| Probe.Handler_ :=
           {| Handler.Exec := None;
              Handler.HTTPGet :=
                Some {| HTTPGetAction.Path := "/";
                        HTTPGetAction.Port := IntVal 8080;
                        HTTPGetAction.Host := "";
                        HTTPGetAction.Scheme := "";
                        HTTPGetAction.HTTPHeaders :=
                          [ {| HTTPHeader.Name := "Host";
                               HTTPHeader.Value := MainDomain wp |} ] |};
              Handler.TCPSocket := None |};
         Probe.InitialDelaySeconds := 10;
         Probe.TimeoutSeconds := 30;
         Probe.PeriodSeconds := 5;
         Probe.SuccessThreshold := 1;
         Probe.FailureThreshold := 3 |})
  /\ (WordpressSpec.LivenessProbe (Wordpress.Spec wp) = None ->
      livenessProbe wp =
      {| Probe.Handler_ :=
           {| Handler.Exec := None;
              Handler.HTTPGet :=
                Some {| HTTPGetAction.Path := "/-/php-ping";
                        HTTPGetAction.Port := IntVal 8080;
                        HTTPGetAction.Host := "";
                        HTTPGetAction.Scheme := "";
                        HTTPGetAction.HTTPHeaders := [] |};
              Handler.TCPSocket := None |};
         Probe.InitialDelaySeconds := 10;
         Probe.TimeoutSeconds := 30;
         Probe.PeriodSeconds := 5;
         Probe.SuccessThreshold := 1;
         Probe.FailureThreshold := 3 |})
  /\ "/-/php-ping" <> "/"
  /\ (forall o1 o2, exists t main,
        WebPodTemplateSpec o1 o2 wp = Some t
        /\ mainContainer t = Some main
        /\ Container.ReadinessProbe main = Some (readinessProbe wp)
        /\ Container.LivenessProbe main = Some (livenessProbe wp)).
Proof.
  unfold readinessProbe, livenessProbe.
  split; [by intros probe ->|]. split; [by intros probe ->|].
  split; [by intros ->|]. split; [by intros ->|]. split; [done|].
  intros o1 o2.
  destruct (WebPodTemplateSpec_shape o1 o2 wp)
    as (t & main & inits & mounts & Ht & _ & _ & _ & Hmain & _ & _ & _ & _ & Hr & Hl & _).
  by exists t, main.
Qed.

(** C8, as amended.  With code mounts the mount list of the main process
    is the log mount, the mounts of the caller as given, three mounts of the
    code volume and the media mount, if any.  The three are the fetch
    destination, read-only as the caller marks the code, the content
    sub-path at the path the caller chose, read-only likewise, and the
    config sub-path, read-only, at the configuration path; all three name
    the code volume.  The mounts naming the code volume are these three and
    those among the log mount and the mounts of the caller that name it. *)
Theorem C8_code_mounts wp code :
  WordpressSpec.CodeVolumeSpec_ (Wordpress.Spec wp) = Some code ->
  hasCodeMounts wp = true ->
  codeMounts code =
    [ {| VolumeMount.Name := "code";
         VolumeMount.ReadOnly := CodeVolumeSpec.ReadOnly code;
         VolumeMount.MountPath := codeSrcMountPath;
         VolumeMount.SubPath := "" |};
      {| VolumeMount.Name := "code";
         VolumeMount.ReadOnly := CodeVolumeSpec.ReadOnly code;
         VolumeMount.MountPath := CodeVolumeSpec.MountPath code;
         VolumeMount.SubPath := CodeVolumeSpec.ContentSubPath code |};
      {| VolumeMount.Name := "code";
         VolumeMount.ReadOnly := true;
         VolumeMount.MountPath := configMountPath;
         VolumeMount.SubPath := CodeVolumeSpec.ConfigSubPath code |} ]
  /\ volumeMounts wp =
     Some (logMount :: WordpressSpec.VolumeMounts (Wordpress.Spec wp)
             ++ codeMounts code ++ mediaMountsOf wp)
  /\ mountsNaming codeVolumeName (codeMounts code ++ mediaMountsOf wp) = 3
  /\ (forall ms, volumeMounts wp = Some ms ->
        mountsNaming codeVolumeName ms =
        mountsNaming codeVolumeName
          (logMount :: WordpressSpec.VolumeMounts (Wordpress.Spec wp)) + 3)
  /\ (forall o1 o2, exists t main,
        WebPodTemplateSpec o1 o2 wp = Some t
        /\ mainContainer t = Some main
        /\ Container.VolumeMounts main =
           logMount :: WordpressSpec.VolumeMounts (Wordpress.Spec wp)
             ++ codeMounts code ++ mediaMountsOf wp).
Proof.
  intros Hcode Hc.
  assert (volumeMounts wp =
          Some (logMount :: WordpressSpec.VolumeMounts (Wordpress.Spec wp)
                  ++ codeMounts code ++ mediaMountsOf wp)) as Hvm.
  { rewrite volumeMounts_eq. unfold codeMountsOf. by rewrite Hcode, Hc. }
  assert (mountsNaming codeVolumeName (codeMounts code ++ mediaMountsOf wp) = 3) as Hn.
  { unfold mountsNaming, mediaMountsOf.
    destruct (WordpressSpec.MediaVolumeSpec_ _) as [media|];
      [destruct (hasMediaMounts wp)|]; reflexivity. }
  split; [done|]. split; [done|]. split; [done|]. split.
  - intros ms Hms. rewrite Hvm in Hms. injection Hms as <-.
    unfold mountsNaming in *.
    rewrite app_comm_cons, filter_app, length_app. f_equal. exact Hn.
  - intros o1 o2.
    destruct (WebPodTemplateSpec_shape o1 o2 wp)
      as (t & main & inits & mounts & Ht & _ & Hmo & _ & Hmain & _ & _ & _ & Hvms & _).
    exists t, main. rewrite Hvm in Hmo. injection Hmo as <-. done.
Qed.

(** C9.  Both templates are functions of the resource (and of the command,
    for the job): the orders in which the two label maps are visited, the
    one thing the language leaves open, do not show in the result, and both
    compilations return a template. *)
Theorem C9_templates_deterministic (o1 o2 o1' o2' : MapOrder) wp (cmd : list string) :
  WebPodTemplateSpec o1 o2 wp = WebPodTemplateSpec o1' o2' wp
  /\ JobPodTemplateSpec o1 o2 wp cmd = JobPodTemplateSpec o1' o2' wp cmd
  /\ is_Some (WebPodTemplateSpec o1 o2 wp)
  /\ is_Some (JobPodTemplateSpec o1 o2 wp cmd).
Proof.
  split; [|split; [|split]].
  - unfold WebPodTemplateSpec, templateMeta. by rewrite !labels_Merge_union.
  - unfold JobPodTemplateSpec, templateMeta. by rewrite !labels_Merge_union.
  - destruct (WebPodTemplateSpec_shape o1 o2 wp) as (t & ? & ? & ? & -> & _). eauto.
  - destruct (JobPodTemplateSpec_shape o1 o2 wp cmd) as (t & ? & ? & ? & -> & _). eauto.
Qed.

(** C10.  With both backend descriptors set the media-derived environment
    is the [s3] bucket variable, the remapped S3 credentials, the [gs]
    bucket variable and the remapped GCS credentials, in this order: two
    variables named [STACK_MEDIA_BUCKET], and neither backend gives way to
    the other. *)
Theorem C10_both_backends wp media s3 gcs :
  WordpressSpec.MediaVolumeSpec_ (Wordpress.Spec wp) = Some media ->
  MediaVolumeSpec.S3VolumeSource media = Some s3 ->
  MediaVolumeSpec.GCSVolumeSource media = Some gcs ->
  let s3Creds :=
    omap (fun e => (fun name => EnvVar.rename name e) <$> s3EnvVars !! EnvVar.Name e)
         (BucketVolumeSource.Env s3) in
  let gcsCreds :=
    omap (fun e => (fun name => EnvVar.rename name e) <$> gcsEnvVars !! EnvVar.Name e)
         (BucketVolumeSource.Env gcs) in
  let s3Var :=
    EnvVar.lit "STACK_MEDIA_BUCKET"
      ("s3://" +:+
       Go.path_Join [BucketVolumeSource.Bucket s3; BucketVolumeSource.PathPrefix s3]) in
  let gcsVar :=
    EnvVar.lit "STACK_MEDIA_BUCKET"
      ("gs://" +:+
       Go.path_Join [BucketVolumeSource.Bucket gcs; BucketVolumeSource.PathPrefix gcs]) in
  mediaEnv wp = [s3Var] ++ s3Creds ++ [gcsVar] ++ gcsCreds
  /\ mediaEnv wp !! 0 = Some s3Var
  /\ mediaEnv wp !! (1 + length s3Creds) = Some gcsVar
  /\ EnvVar.Name s3Var = EnvVar.Name gcsVar.
Proof.
  intros Hmedia Hs3 Hgcs s3Creds gcsCreds s3Var gcsVar.
  assert (mediaEnv wp = [s3Var] ++ s3Creds ++ [gcsVar] ++ gcsCreds) as Hm.
  { by rewrite mediaEnv_segments, Hmedia, Hs3, Hgcs. }
  split; [done|]. split; [by rewrite Hm|]. split; [|done].
  rewrite Hm. simpl. rewrite lookup_app_r by lia. by rewrite Nat.sub_diag.
Qed.

End Properties.

(** ** The properties on the sample resources *)

#[local] Existing Instance Sample.externals.

Example path_Join_bucket : Go.path_Join ["b"; "p"] = "b/p".
Proof. reflexivity. Qed.

Example path_Join_root_route : Go.path_Join ["example.com"; "/"] = "example.com".
Proof. reflexivity. Qed.

Example path_Join_dotdot : Go.path_Join ["a/b"; "../../../c/./d//"] = "../c/d".
Proof. reflexivity. Qed.

Example path_Join_rooted : Go.path_Join ["/a/.."; ".."; "x"] = "/x".
Proof. reflexivity. Qed.

Example path_Join_empty : Go.path_Join [""; ""] = "".
Proof. reflexivity. Qed.

Example path_Clean_dots : Go.path_Clean "a/./.." = ".".
Proof. reflexivity. Qed.

Example sprintf_d_uid : Go.sprintf_d wwwDataUserID = "33".
Proof. reflexivity. Qed.

(** The git code source, an S3 backend and a bootstrap: the init containers
    are the preparation, the git and the install steps, and the media
    environment has the variable of value [s3://b/p]. *)
Example gitS3Site_init_containers :
  fmap (M := option) (fmap (M := list) Container.Name)
    (initContainers Sample.gitS3Site)
  = Some ["prepare-volumes"; "git"; "install-wp"].
Proof. vm_compute. reflexivity. Qed.

Example gitS3Site_mediaEnv :
  mediaEnv Sample.gitS3Site =
  [ EnvVar.lit "STACK_MEDIA_BUCKET" "s3://b/p";
    EnvVar.lit "AWS_ACCESS_KEY_ID" "k";
    EnvVar.lit "S3_ENDPOINT" "e" ].
Proof. vm_compute. reflexivity. Qed.

Example bareSite_readinessProbe :
  (HTTPGetAction.HTTPHeaders
     <$> Handler.HTTPGet (Probe.Handler_ (readinessProbe Sample.bareSite)))
  = Some [ {| HTTPHeader.Name := "Host"; HTTPHeader.Value := "site.default.svc" |} ]
  /\ Probe.FailureThreshold (readinessProbe Sample.bareSite) = 3%Z.
Proof. split; reflexivity. Qed.

Example routedSite_env :
  (fun e => (EnvVar.Name e, EnvVar.Value e)) <$> env Sample.routedSite
  = [ ("WP_HOME", "http://site");
      ("WP_SITEURL", "http://site/wp");
      ("WP_CORE_DIRECTORY", "wp");
      ("STACK_ROUTES", "example.com,example.org/blog");
      ("STACK_SITE_NAME", "site");
      ("STACK_SITE_NAMESPACE", "default");
      ("WP_HOME", "http://override") ].
Proof. vm_compute. reflexivity. Qed.

Example manyVariantsSite_codeVolume :
  codeVolume Sample.manyVariantsSite
  = emptyDirVolume codeVolumeName EmptyDirVolumeSource.zero
  /\ hasCodeMounts Sample.manyVariantsSite = true.
Proof. split; reflexivity. Qed.

Example bareSite_no_code :
  volumes Sample.bareSite = auxVolumes
  /\ volumeMounts Sample.bareSite = Some [logMount]
  /\ initContainers Sample.bareSite = Some [].
Proof. repeat split; reflexivity. Qed.

Example probedSite_probes :
  readinessProbe Sample.probedSite = Sample.tcpProbe
  /\ livenessProbe Sample.probedSite = Sample.tcpProbe.
Proof. split; reflexivity. Qed.

Example templates_of_gitS3Site :
  is_Some (WebPodTemplateSpec Sample.forwards Sample.backwards Sample.gitS3Site)
  /\ WebPodTemplateSpec Sample.forwards Sample.backwards Sample.gitS3Site
     = WebPodTemplateSpec Sample.backwards Sample.forwards Sample.gitS3Site.
Proof.
  split; [vm_compute; eauto|]. vm_compute. reflexivity.
Qed.

Example forwards_backwards_differ :
  range Sample.forwards {[ "a" := "1"; "b" := "2" ]}
  <> range Sample.backwards {[ "a" := "1"; "b" := "2" ]}.
Proof. vm_compute. discriminate. Qed.

(** C1, as stated, fails on the resource with only an S3 backend: the
    descriptor is set and no mount source is, and there is neither a media
    volume nor a media mount. *)
Lemma C1_counterexample :
  backendOnly Sample.s3OnlySite = true
  /\ ~ mediaMaterializedEphemeral Sample.s3OnlySite.
Proof.
  split; [reflexivity|].
  intros [(v & Hin & Hname & _) _].
  change (volumes Sample.s3OnlySite) with (@auxVolumes Sample.externals) in Hin.
  unfold auxVolumes in Hin.
  rewrite !elem_of_cons, elem_of_nil in Hin.
  destruct Hin as [->|[->|[]]]; discriminate Hname.
Qed.

Lemma C1_witness :
  backendOnly Sample.s3OnlySite = true
  /\ hasMediaMounts Sample.s3OnlySite = false
  /\ volumes Sample.s3OnlySite = auxVolumes
  /\ volumeMounts Sample.s3OnlySite = Some [logMount].
Proof.
  destruct (C1_backend_only_adds_no_media_volume Sample.s3OnlySite eq_refl)
    as (Hm & Hv & Hvm & _).
  split; [reflexivity|]. split; [exact Hm|]. split; [exact Hv|exact Hvm].
Defined.

(** C6, as stated, fails on the resource with both backends: the GCS
    descriptor is set and the media-derived environment starts with the
    [s3] bucket variable, not with the [gs] one. *)
Lemma C6_counterexample :
  (MediaVolumeSpec.GCSVolumeSource
     <$> WordpressSpec.MediaVolumeSpec_ (Wordpress.Spec Sample.bothBackendsSite))
  = Some (Some Sample.gcsBucket)
  /\ head (mediaEnv Sample.bothBackendsSite)
     = Some (EnvVar.lit "STACK_MEDIA_BUCKET" "s3://b/p")
  /\ ~ startsWithBucket "gs" Sample.gcsBucket (mediaEnv Sample.bothBackendsSite).
Proof.
  split; [reflexivity|]. split; [vm_compute; reflexivity|].
  unfold startsWithBucket. vm_compute. discriminate.
Qed.

Lemma C6_witness :
  WordpressSpec.MediaVolumeSpec_ (Wordpress.Spec Sample.bothBackendsSite)
  = Some (Sample.mediaOf (Some Sample.s3Bucket) (Some Sample.gcsBucket) None)
  /\ mediaEnv Sample.bothBackendsSite =
     backendEnv s3Prefix s3EnvVars (Some Sample.s3Bucket)
     ++ backendEnv gcsPrefix gcsEnvVars (Some Sample.gcsBucket)
  /\ startsWithBucket "s3" Sample.s3Bucket (mediaEnv Sample.bothBackendsSite).
Proof.
  destruct (C6_media_env_blocks Sample.bothBackendsSite
              (Sample.mediaOf (Some Sample.s3Bucket) (Some Sample.gcsBucket) None)
              eq_refl) as (Hseg & Hs3 & _).
  split; [reflexivity|]. split; [exact Hseg|]. exact (Hs3 Sample.s3Bucket eq_refl).
Defined.

(** C8, as stated, fails on the resource with the git code source and a
    mount of the caller that names the code volume: four mounts of the main
    process name it. *)
Lemma C8_counterexample :
  hasCodeMounts Sample.extraCodeMountSite = true
  /\ exists ms, volumeMounts Sample.extraCodeMountSite = Some ms
                /\ mountsNaming codeVolumeName ms = 4
                /\ mountsNaming codeVolumeName ms <> 3.
Proof.
  split; [reflexivity|]. eexists. split; [reflexivity|].
  split; [vm_compute; reflexivity|]. vm_compute. discriminate.
Qed.

Lemma C8_witness :
  WordpressSpec.CodeVolumeSpec_ (Wordpress.Spec Sample.gitS3Site) = Some Sample.gitCode
  /\ hasCodeMounts Sample.gitS3Site = true
  /\ volumeMounts Sample.gitS3Site = Some (logMount :: codeMounts Sample.gitCode)
  /\ mountsNaming codeVolumeName (logMount :: codeMounts Sample.gitCode) = 3.
Proof.
  destruct (C8_code_mounts Sample.gitS3Site Sample.gitCode eq_refl eq_refl)
    as (_ & Hvm & _ & Hn & _).
  split; [reflexivity|]. split; [reflexivity|]. split; [exact Hvm|].
  exact (Hn _ Hvm).
Defined.

Lemma C10_witness :
  mediaEnv Sample.bothBackendsSite =
  [ EnvVar.lit "STACK_MEDIA_BUCKET" "s3://b/p";
    EnvVar.lit "AWS_ACCESS_KEY_ID" "k";
    EnvVar.lit "S3_ENDPOINT" "e";
    EnvVar.lit "STACK_MEDIA_BUCKET" "gs://b/p";
    EnvVar.lit "GOOGLE_CREDENTIALS" "k" ].
Proof.
  destruct (C10_both_backends Sample.bothBackendsSite
              (Sample.mediaOf (Some Sample.s3Bucket) (Some Sample.gcsBucket) None)
              Sample.s3Bucket Sample.gcsBucket eq_refl eq_refl eq_refl)
    as (Hm & _).
  rewrite Hm. vm_compute. reflexivity.
Defined.

(** ** Further properties *)

Section MoreProperties.
Context `{X : Externals}.

Implicit Types wp : Wordpress.t.

(** *** [path.Join] on plain components *)

Lemma list_ascii_of_string_app (a b : string) :
  list_ascii_of_string (a +:+ b) = list_ascii_of_string a ++ list_ascii_of_string b.
Proof. induction a as [|c a IH]; simpl; [done|]. by rewrite IH. Qed.

(** The copy loop runs to the end of the element. *)
Lemma clean_loop_copy rooted (e rest rout : list ascii) (dotdot : nat) :
  forallb (fun c => negb (Ascii.eqb c Go.slash)) e = true ->
  Go.at_sep rest = true ->
  Go.clean_loop rooted true (e ++ rest) rout dotdot
  = Go.clean_loop rooted false (tail rest) (rev e ++ rout) dotdot.
Proof.
  intros He Hrest. revert rout.
  induction e as [|a e IH]; intros rout.
  - destruct rest as [|c r]; [done|]. simpl in *. by rewrite Hrest.
  - simpl in He. apply andb_true_iff in He as [Ha He].
    apply negb_true_iff in Ha. simpl. rewrite Ha, (IH He).
    by rewrite <- app_assoc.
Qed.

(** An element other than [.] and [..] is copied, after a slash when the
    buffer already holds an element. *)
Lemma clean_loop_element rooted (e rest rout : list ascii) (dotdot : nat) :
  e <> [] -> e <> [Go.dot] -> e <> [Go.dot; Go.dot] ->
  forallb (fun c => negb (Ascii.eqb c Go.slash)) e = true ->
  Go.at_sep rest = true ->
  Go.clean_loop rooted false (e ++ rest) rout dotdot
  = Go.clean_loop rooted false (tail rest)
      (rev e ++
       (if (rooted && negb (length rout =? 1)%nat)
           || (negb rooted && negb (length rout =? 0)%nat)
        then Go.slash :: rout else rout))
      dotdot.
Proof.
  intros Hne Hdot Hdotdot He Hrest.
  destruct e as [|c e]; [done|].
  simpl in He. apply andb_true_iff in He as [Hc He]. apply negb_true_iff in Hc.
  assert (forall q, Go.clean_loop rooted true (e ++ rest) (c :: q) dotdot
                    = Go.clean_loop rooted false (tail rest) (rev (c :: e) ++ q) dotdot)
    as Hcopy.
  { intros q. rewrite clean_loop_copy by done. simpl. by rewrite <- app_assoc. }
  change ((c :: e) ++ rest) with (c :: (e ++ rest)).
  cbn [Go.clean_loop]. rewrite Hc.
  destruct (Ascii.eqb c Go.dot) eqn:Hcd.
  - apply Ascii.eqb_eq in Hcd as ->.
    destruct e as [|c' e]; [done|].
    simpl in He. apply andb_true_iff in He as [Hc' He]. apply negb_true_iff in Hc'.
    change ((c' :: e) ++ rest) with (c' :: (e ++ rest)) in *.
    cbn [Go.at_sep andb]. rewrite Hc'. cbn [andb].
    destruct (Ascii.eqb c' Go.dot) eqn:Hcd'.
    + apply Ascii.eqb_eq in Hcd' as ->.
      destruct e as [|c'' e]; [done|].
      simpl in He. apply andb_true_iff in He as [Hc'' He]. apply negb_true_iff in Hc''.
      change ((c'' :: e) ++ rest) with (c'' :: (e ++ rest)) in *.
      cbn [Go.at_sep andb]. rewrite Hc''. cbn [andb]. apply Hcopy.
    + cbn [andb]. apply Hcopy.
  - cbn [andb].
    specialize (Hcopy (if (rooted && negb (length rout =? 1)%nat)
                          || (negb rooted && negb (length rout =? 0)%nat)
                       then Go.slash :: rout else rout)).
    destruct (e ++ rest); exact Hcopy.
Qed.

Lemma plain_list (s : string) :
  plain s = true ->
  list_ascii_of_string s <> [] /\ list_ascii_of_string s <> [Go.dot]
  /\ list_ascii_of_string s <> [Go.dot; Go.dot]
  /\ forallb (fun c => negb (Ascii.eqb c Go.slash)) (list_ascii_of_string s) = true
  /\ s <> "".
Proof.
  unfold plain. rewrite !andb_true_iff, !negb_true_iff.
  intros [[[H0 H1] H2] H3].
  apply String.eqb_neq in H0, H1, H2.
  repeat split; try done;
    intros E; apply (f_equal string_of_list_ascii) in E;
    rewrite string_of_list_ascii_of_string in E; by subst s.
Qed.

(** [path.Clean] of a path that does not start with a slash and whose
    cleaning leaves something. *)
Lemma path_Clean_unrooted (s : string) (e rest : list ascii) :
  list_ascii_of_string s = e ++ rest ->
  e <> [] -> e <> [Go.dot] -> e <> [Go.dot; Go.dot] ->
  forallb (fun c => negb (Ascii.eqb c Go.slash)) e = true ->
  Go.at_sep rest = true ->
  Go.clean_loop false false (tail rest) (rev e) 0 <> [] ->
  Go.path_Clean s
  = string_of_list_ascii (rev (Go.clean_loop false false (tail rest) (rev e) 0)).
Proof.
  intros Hs Hne Hdot Hdotdot He Hrest Hout. unfold Go.path_Clean. rewrite Hs.
  destruct e as [|c e]; [done|].
  change ((c :: e) ++ rest) with (c :: (e ++ rest)).
  assert (Ascii.eqb c Go.slash = false) as Hc.
  { simpl in He. apply andb_true_iff in He as [Hc _]. by apply negb_true_iff in Hc. }
  cbv beta iota zeta. rewrite Hc.
  change (c :: (e ++ rest)) with ((c :: e) ++ rest).
  rewrite clean_loop_element by done.
  cbn [andb orb negb length Nat.eqb]. rewrite app_nil_r.
  by destruct (Go.clean_loop _ _ _ _ _).
Qed.

(** [path.Join] of a plain domain and a path that is empty, the root, or a
    plain segment with or without a leading slash. *)
Lemma path_Join_simple (d p : string) :
  plain d = true ->
  String.eqb (trimSlash p) "" || plain (trimSlash p) = true ->
  Go.path_Join [d; p] =
  if String.eqb (trimSlash p) "" then d else d +:+ "/" +:+ trimSlash p.
Proof.
  intros Hd Hp.
  destruct (plain_list d Hd) as (Hd0 & Hd1 & Hd2 & Hd3 & Hd4).
  unfold Go.path_Join.
  assert ((foldr (fun e n => String.length e + n) 0 [d; p] =? 0)%nat = false) as ->.
  { apply Nat.eqb_neq. destruct d; simpl; [done|lia]. }
  assert (Go.join_buf "" [d; p] = (d +:+ "/") +:+ p) as ->.
  { simpl. change ("" +:+ d) with d.
    apply String.eqb_neq in Hd4. by rewrite Hd4. }
  assert (rev (list_ascii_of_string d) <> []) as Hrd.
  { intros E. apply (f_equal (@rev ascii)) in E. by rewrite rev_involutive in E. }
  assert (forall seg,
            plain seg = true ->
            Go.clean_loop false false (list_ascii_of_string seg)
              (rev (list_ascii_of_string d)) 0
            = rev (list_ascii_of_string (d +:+ "/" +:+ seg))) as Hseg.
  { intros seg Hs.
    destruct (plain_list seg Hs) as (Hs0 & Hs1 & Hs2 & Hs3 & Hs4).
    rewrite <- (app_nil_r (list_ascii_of_string seg)) at 1.
    rewrite clean_loop_element by done.
    cbn [tail negb andb orb Go.clean_loop]. rewrite length_rev.
    destruct (length (list_ascii_of_string d)) eqn:El;
      [by destruct (list_ascii_of_string d)|].
    cbn [Nat.eqb negb].
    rewrite !list_ascii_of_string_app, !rev_app_distr. simpl.
    by rewrite <- app_assoc. }
  assert (forall seg,
            plain seg = true ->
            string_of_list_ascii
              (rev (Go.clean_loop false false (list_ascii_of_string seg)
                      (rev (list_ascii_of_string d)) 0))
            = d +:+ "/" +:+ seg) as Hseg'.
  { intros seg Hs. rewrite (Hseg seg Hs), rev_involutive.
    apply string_of_list_ascii_of_string. }
  assert (forall seg,
            plain seg = true ->
            Go.clean_loop false false (list_ascii_of_string seg)
              (rev (list_ascii_of_string d)) 0 <> []) as Hsegne.
  { intros seg Hs. rewrite (Hseg seg Hs). intros E.
    apply (f_equal (@rev ascii)) in E. rewrite rev_involutive in E.
    rewrite list_ascii_of_string_app in E. by destruct (list_ascii_of_string d). }
  assert (string_of_list_ascii (rev (rev (list_ascii_of_string d))) = d) as Hdd.
  { rewrite rev_involutive. apply string_of_list_ascii_of_string. }
  assert (forall q, list_ascii_of_string ((d +:+ "/") +:+ q)
                    = list_ascii_of_string d ++ Go.slash :: list_ascii_of_string q)
    as Hl.
  { intros q. rewrite !list_ascii_of_string_app, <- app_assoc. done. }
  destruct p as [|c p].
  - (* the empty path: the buffer is the domain and a slash *)
    rewrite (path_Clean_unrooted _ _ _ (Hl "")); done.
  - simpl in Hp |- *. destruct (Ascii.eqb c Go.slash) eqn:Hc.
    + (* a leading slash: the buffer has two slashes after the domain *)
      apply Ascii.eqb_eq in Hc as ->.
      destruct (String.eqb_spec p "") as [->|Hne].
      * rewrite (path_Clean_unrooted _ _ _ (Hl (String Go.slash ""))); done.
      * simpl in Hp.
        rewrite (path_Clean_unrooted _ _ _ (Hl (String Go.slash p))); try done.
        -- apply (Hseg' p Hp).
        -- apply (Hsegne p Hp).
    + (* no leading slash *)
      assert (String.eqb (String c p) "" = false) as Hpe by done.
      rewrite Hpe in Hp |- *. simpl in Hp.
      rewrite (path_Clean_unrooted _ _ _ (Hl (String c p))); try done.
      * apply (Hseg' _ Hp).
      * apply (Hsegne _ Hp).
Qed.

Lemma plain_trimSlash (p : string) :
  plain p = true -> trimSlash p = p /\ String.eqb p "" = false.
Proof.
  intros Hp. destruct p as [|c p]; [done|]. split; [|done].
  unfold plain in Hp. rewrite !andb_true_iff in Hp. destruct Hp as [_ Hp].
  simpl in Hp. apply andb_true_iff in Hp as [Hc _]. apply negb_true_iff in Hc.
  simpl. by rewrite Hc.
Qed.

(** C5, as amended.  The fourth built-in variable of the main process is
    [STACK_ROUTES].  With no route its value is the main domain.  With
    routes it is, in the order of the routes and joined by commas,
    [path.Join] of the domain and the path of each route: the cleaned
    join, not the text [domain/path] letter for letter.  The two agree for
    a plain domain and a plain path; for a plain domain the empty and the
    root path give the domain alone and a plain segment after a slash gives
    [domain/segment]; elsewhere [.] and [..] elements and repeated slashes
    are resolved. *)
Theorem C5_stack_routes wp :
  (WordpressSpec.Routes (Wordpress.Spec wp) = [] ->
   env wp !! 3 = Some (EnvVar.lit "STACK_ROUTES" (MainDomain wp)))
  /\ (WordpressSpec.Routes (Wordpress.Spec wp) <> [] ->
      env wp !! 3 =
      Some (EnvVar.lit "STACK_ROUTES"
              (String.concat ","
                 (map (fun r => Go.path_Join [RouteSpec.Domain r; RouteSpec.Path r])
                      (WordpressSpec.Routes (Wordpress.Spec wp))))))
  /\ (WordpressSpec.Routes (Wordpress.Spec wp) <> [] ->
      Forall (fun r => simpleRoute r = true)
             (WordpressSpec.Routes (Wordpress.Spec wp)) ->
      env wp !! 3 =
      Some (EnvVar.lit "STACK_ROUTES"
              (String.concat ","
                 (map routeText (WordpressSpec.Routes (Wordpress.Spec wp))))))
  /\ (forall r,
        plain (RouteSpec.Domain r) = true -> plain (RouteSpec.Path r) = true ->
        simpleRoute r = true /\ routeText r = literalRoute r
        /\ Go.path_Join [RouteSpec.Domain r; RouteSpec.Path r] = literalRoute r)
  /\ (forall o1 o2, exists t main,
        WebPodTemplateSpec o1 o2 wp = Some t
        /\ mainContainer t = Some main
        /\ Container.Env main = env wp).
Proof.
  destruct (env_stack_routes wp) as [Henv Hmain].
  split; [|split; [|split; [|split; [|done]]]].
  - intros Hr. by rewrite Henv, Hr.
  - intros Hr. rewrite Henv. by destruct (WordpressSpec.Routes _).
  - intros Hr Hall. rewrite Henv.
    destruct (WordpressSpec.Routes (Wordpress.Spec wp)) as [|r rs]; [done|].
    do 3 f_equal. revert Hall. generalize (r :: rs). intros l Hl.
    induction Hl as [|r' l Hr' Hl IH]; [done|]. simpl. f_equal; [|done].
    unfold simpleRoute in Hr'. apply andb_true_iff in Hr' as [Hd Hp].
    apply (path_Join_simple _ _ Hd Hp).
  - intros r Hd Hp. destruct (plain_trimSlash _ Hp) as [Ht He].
    assert (simpleRoute r = true) as Hs.
    { unfold simpleRoute. by rewrite Hd, Ht, Hp, orb_true_r. }
    assert (routeText r = literalRoute r) as Hrt.
    { unfold routeText, literalRoute. by rewrite Ht, He. }
    split; [done|]. split; [done|]. rewrite <- Hrt. unfold routeText.
    apply path_Join_simple; [done|]. by rewrite Ht, Hp, orb_true_r.
Qed.

(** X1.  For routes of a plain domain whose path is empty, the root or one
    plain segment (with or without its leading slash), [path.Join] neither
    drops nor rewrites anything but the slashes: the root and the empty path
    give the domain alone, a segment gives [domain/segment], and
    [STACK_ROUTES] is their comma-separated list in the order of the
    routes. *)
Theorem X1_routes_of_simple_routes wp :
  WordpressSpec.Routes (Wordpress.Spec wp) <> [] ->
  Forall (fun r => simpleRoute r = true) (WordpressSpec.Routes (Wordpress.Spec wp)) ->
  routes wp = map routeText (WordpressSpec.Routes (Wordpress.Spec wp))
  /\ env wp !! 3 =
     Some (EnvVar.lit "STACK_ROUTES"
             (String.concat "," (map routeText (WordpressSpec.Routes (Wordpress.Spec wp))))).
Proof.
  intros Hne Hall.
  assert (routes wp = map routeText (WordpressSpec.Routes (Wordpress.Spec wp))) as Hr.
  { rewrite routes_eq.
    destruct (WordpressSpec.Routes (Wordpress.Spec wp)) as [|r rs] eqn:E; [done|].
    clear E Hne. revert Hall. generalize (r :: rs). intros l Hl.
    induction Hl as [|r' l Hr' Hl IH]; [done|]. simpl. f_equal; [|done].
    unfold simpleRoute in Hr'. apply andb_true_iff in Hr' as [Hd Hp].
    apply (path_Join_simple _ _ Hd Hp). }
  split; [done|]. unfold env. simpl. by rewrite Hr.
Qed.

(** X2.  No function of the file dereferences a nil pointer on any resource
    through the two templates: the mount list, the volume-preparation
    container, the install container and the init containers are always
    returned.  The two functions that read the git source without a check
    do panic outside their guard: [gitCloneEnv] exactly when there is no
    code source, [gitCloneContainer] exactly when the git variant is not
    set; [initContainers] calls the latter only under that guard. *)
Theorem X2_nil_safety wp :
  is_Some (volumeMounts wp)
  /\ is_Some (prepareVolumesContainer wp)
  /\ is_Some (installWPContainer wp)
  /\ is_Some (initContainers wp)
  /\ (gitCloneEnv wp = None <->
      WordpressSpec.CodeVolumeSpec_ (Wordpress.Spec wp) = None)
  /\ (gitCloneContainer wp = None <-> hasGitDir wp = false).
Proof.
  split; [rewrite volumeMounts_eq; eauto|].
  split; [destruct (prepareVolumesContainer_total wp) as (c & -> & _); eauto|].
  split.
  { pose proof (installWPContainer_total wp) as H.
    destruct (WordpressSpec.WordpressBootstrapSpec_ _); [|rewrite H; eauto].
    destruct H as (c & -> & _); eauto. }
  split; [rewrite initContainers_eq; eauto|].
  split.
  - unfold gitCloneEnv.
    destruct (WordpressSpec.CodeVolumeSpec_ _) as [code|]; simpl; [|done].
    by destruct (CodeVolumeSpec.GitDir code).
  - split.
    + intros Hn. destruct (hasGitDir wp) eqn:Hg; [|done].
      destruct (gitCloneContainer_total wp Hg) as (c & Hc & _). congruence.
    + unfold hasGitDir, gitCloneContainer, gitCloneEnv.
      destruct (WordpressSpec.CodeVolumeSpec_ _) as [code|]; simpl; [|done].
      by destruct (CodeVolumeSpec.GitDir code).
Qed.

Lemma codeVolume_name wp : Volume.Name (codeVolume wp) = codeVolumeName.
Proof.
  unfold codeVolume.
  destruct (WordpressSpec.CodeVolumeSpec_ _) as [code|]; [|done].
  destruct (CodeVolumeSpec.GitDir code) as [git|];
    [by destruct (GitVolumeSource.EmptyDir git)|].
  by destruct (CodeVolumeSpec.PersistentVolumeClaim code),
    (CodeVolumeSpec.HostPath code), (CodeVolumeSpec.EmptyDir code).
Qed.

Lemma mediaVolume_name wp : Volume.Name (mediaVolume wp) = mediaVolumeName.
Proof.
  unfold mediaVolume.
  destruct (WordpressSpec.MediaVolumeSpec_ _) as [media|]; [|done].
  by destruct (MediaVolumeSpec.PersistentVolumeClaim media),
    (MediaVolumeSpec.HostPath media), (MediaVolumeSpec.EmptyDir media).
Qed.

Lemma resolves_aux wp (m : VolumeMount.t) :
  VolumeMount.Name m = knativeInternalVolume \/ VolumeMount.Name m = knativeVarLogVolume ->
  resolves wp m.
Proof.
  intros [H|H]; unfold resolves; rewrite volumes_eq, H; unfold auxVolumes.
  - eexists. split; [apply elem_of_app; left; apply list_elem_of_here|done].
  - eexists. split;
      [apply elem_of_app; left; apply list_elem_of_further, list_elem_of_here|done].
Qed.

Lemma resolves_code wp (m : VolumeMount.t) :
  hasCodeMounts wp = true -> VolumeMount.Name m = codeVolumeName -> resolves wp m.
Proof.
  intros Hc H. exists (codeVolume wp). rewrite volumes_eq, Hc, H, codeVolume_name.
  split; [|done]. rewrite !elem_of_app. right. right. left. apply list_elem_of_here.
Qed.

Lemma resolves_media wp (m : VolumeMount.t) :
  hasMediaMounts wp = true -> VolumeMount.Name m = mediaVolumeName -> resolves wp m.
Proof.
  intros Hm H. exists (mediaVolume wp). rewrite volumes_eq, Hm, H, mediaVolume_name.
  split; [|done]. rewrite !elem_of_app. right. right. right. apply list_elem_of_here.
Qed.

Lemma codeMountsOf_resolve wp : Forall (resolves wp) (codeMountsOf wp).
Proof.
  unfold codeMountsOf.
  destruct (WordpressSpec.CodeVolumeSpec_ _) as [code|]; [|done].
  destruct (hasCodeMounts wp) eqn:Hc; [|done].
  unfold codeMounts. repeat constructor; by apply resolves_code.
Qed.

Lemma mediaMountsOf_resolve wp : Forall (resolves wp) (mediaMountsOf wp).
Proof.
  unfold mediaMountsOf.
  destruct (WordpressSpec.MediaVolumeSpec_ _) as [media|]; [|done].
  destruct (hasMediaMounts wp) eqn:Hm; [|done].
  repeat constructor. by apply resolves_media.
Qed.

Lemma writableCodeMount_resolve wp : Forall (resolves wp) (writableCodeMount wp).
Proof.
  unfold writableCodeMount.
  destruct (WordpressSpec.CodeVolumeSpec_ _) as [code|]; [|done].
  destruct (hasCodeMounts wp) eqn:Hc; [|done].
  destruct (CodeVolumeSpec.ReadOnly code); [done|].
  repeat constructor. by apply resolves_code.
Qed.

Lemma writableMediaMount_resolve wp : Forall (resolves wp) (writableMediaMount wp).
Proof.
  unfold writableMediaMount.
  destruct (WordpressSpec.MediaVolumeSpec_ _) as [media|]; [|done].
  destruct (hasMediaMounts wp) eqn:Hm; [|done].
  destruct (MediaVolumeSpec.ReadOnly media); [done|].
  repeat constructor. by apply resolves_media.
Qed.

(** The mounts of the volume-preparation container. *)
Lemma prepareVolumesContainer_mounts wp :
  exists c, prepareVolumesContainer wp = Some c
            /\ Container.VolumeMounts c
               = auxMounts ++ writableCodeMount wp ++ writableMediaMount wp
            /\ Container.SecurityContext_ c = None
            /\ Container.Image c = prepareVolumesImage.
Proof.
  unfold prepareVolumesContainer, writableCodeMount, writableMediaMount, auxMounts.
  destruct (hasCodeMounts wp) eqn:Hc.
  - destruct (hasCodeMounts_Some wp Hc) as [code ->]. simpl.
    destruct (hasMediaMounts wp) eqn:Hm.
    + destruct (hasMediaMounts_Some wp Hm) as [media ->]. simpl.
      destruct (CodeVolumeSpec.ReadOnly code), (MediaVolumeSpec.ReadOnly media); simpl;
        eexists; (split; [reflexivity|]); (split; [|done]); simpl;
        unfold mountAt, setSubPath; simpl;
        try destruct (String.eqb_spec (CodeVolumeSpec.ContentSubPath code) "") as [->|];
        try destruct (String.eqb_spec (MediaVolumeSpec.ContentSubPath media) "") as [->|];
        reflexivity.
    + destruct (CodeVolumeSpec.ReadOnly code); simpl;
        destruct (WordpressSpec.MediaVolumeSpec_ _); simpl;
        eexists; (split; [reflexivity|]); (split; [|done]); simpl;
        unfold mountAt, setSubPath; simpl;
        try destruct (String.eqb_spec (CodeVolumeSpec.ContentSubPath code) "") as [->|];
        reflexivity.
  - simpl. destruct (hasMediaMounts wp) eqn:Hm.
    + destruct (hasMediaMounts_Some wp Hm) as [media ->]. simpl.
      destruct (MediaVolumeSpec.ReadOnly media); simpl;
        destruct (WordpressSpec.CodeVolumeSpec_ _); simpl;
        eexists; (split; [reflexivity|]); (split; [|done]); simpl;
        unfold mountAt, setSubPath; simpl;
        try destruct (String.eqb_spec (MediaVolumeSpec.ContentSubPath media) "") as [->|];
        reflexivity.
    + simpl. destruct (WordpressSpec.CodeVolumeSpec_ _),
        (WordpressSpec.MediaVolumeSpec_ _); simpl;
        eexists; (split; [reflexivity|]); (split; [|done]); reflexivity.
Qed.

(** X3.  With the git variant set the git container is returned and is the
    git step.  Its environment is the clone URL, the checkout directory,
    the ref when the ref is not empty (no [GIT_CLONE_REF] at all otherwise)
    and then the variables of the git source; it has none of the variables
    of the main process, and its bulk references are those of the git
    source alone, without the generated secret.  Its one mount is the code
    volume, read-write whatever the read-only mark of the code source, at
    the checkout directory, which is also where the first code mount of the
    main process is. *)
Theorem X3_git_container wp code git :
  WordpressSpec.CodeVolumeSpec_ (Wordpress.Spec wp) = Some code ->
  CodeVolumeSpec.GitDir code = Some git ->
  exists g first,
    gitCloneContainer wp = Some g
    /\ gitStep wp = [g]
    /\ Container.Image g = GitCloneImage
    /\ Container.Env g =
       [ EnvVar.lit "GIT_CLONE_URL" (GitVolumeSource.Repository git);
         EnvVar.lit "SRC_DIR" codeSrcMountPath ]
       ++ (if String.eqb (GitVolumeSource.GitRef git) "" then []
           else [EnvVar.lit "GIT_CLONE_REF" (GitVolumeSource.GitRef git)])
       ++ GitVolumeSource.Env git
    /\ Container.EnvFrom g = GitVolumeSource.EnvFrom git
    /\ Container.VolumeMounts g =
       [ {| VolumeMount.Name := codeVolumeName;
            VolumeMount.ReadOnly := false;
            VolumeMount.MountPath := codeSrcMountPath;
            VolumeMount.SubPath := "" |} ]
    /\ head (codeMountsOf wp) = Some first
    /\ VolumeMount.Name first = codeVolumeName
    /\ VolumeMount.MountPath first = codeSrcMountPath
    /\ VolumeMount.ReadOnly first = CodeVolumeSpec.ReadOnly code
    /\ Forall (resolves wp) (Container.VolumeMounts g).
Proof.
  intros Hcode Hgit.
  assert (hasGitDir wp = true) as Hg by (unfold hasGitDir; by rewrite Hcode, Hgit).
  pose proof (hasGitDir_hasCodeMounts wp Hg) as Hc.
  unfold gitStep, gitCloneContainer, gitCloneEnv, codeMountsOf.
  rewrite Hg, Hcode, Hc. simpl. rewrite Hgit. simpl.
  eexists _, _. split; [reflexivity|]. split; [reflexivity|]. split; [reflexivity|].
  simpl. split.
  { by destruct (GitVolumeSource.GitRef git). }
  split; [done|]. split; [done|]. split; [reflexivity|].
  split; [done|]. split; [done|]. split; [done|].
  repeat constructor. by apply resolves_code.
Qed.

(** X4.  Every mount the compiler generates names a volume of the pod: the
    mounts of the volume-preparation and git containers, and the log, code
    and media mounts of the main process.  The mounts of the caller are
    copied unchecked; when they name volumes of the pod too, so does every
    mount of the main process and of the install container. *)
Theorem X4_generated_mounts_resolve wp :
  Forall (fun c => Forall (resolves wp) (Container.VolumeMounts c))
         (prepareStep wp ++ gitStep wp)
  /\ Forall (resolves wp) (logMount :: codeMountsOf wp ++ mediaMountsOf wp)
  /\ (Forall (resolves wp) (WordpressSpec.VolumeMounts (Wordpress.Spec wp)) ->
      (exists ms, volumeMounts wp = Some ms /\ Forall (resolves wp) ms)
      /\ Forall (fun c => Forall (resolves wp) (Container.VolumeMounts c))
                (installStep wp)).
Proof.
  assert (Forall (resolves wp) (logMount :: codeMountsOf wp ++ mediaMountsOf wp)) as Hgen.
  { constructor; [apply resolves_aux; by right|].
    apply Forall_app. split; [apply codeMountsOf_resolve|apply mediaMountsOf_resolve]. }
  split; [|split; [done|]].
  - apply Forall_app. split.
    + unfold prepareStep.
      destruct (prepareVolumesContainer_mounts wp) as (c & -> & Hm & _).
      destruct (_ || _); [|done]. repeat constructor. rewrite Hm.
      apply Forall_app. split.
      * unfold auxMounts. repeat constructor; apply resolves_aux; auto.
      * apply Forall_app.
        split; [apply writableCodeMount_resolve|apply writableMediaMount_resolve].
    + unfold gitStep. destruct (hasGitDir wp) eqn:Hg; [|done].
      pose proof (hasGitDir_hasCodeMounts wp Hg) as Hc.
      unfold hasGitDir in Hg. unfold gitCloneContainer, gitCloneEnv.
      destruct (WordpressSpec.CodeVolumeSpec_ _) as [code|]; [|done]. simpl.
      destruct (CodeVolumeSpec.GitDir code) as [git|]; [|done]. simpl.
      repeat constructor. by apply resolves_code.
  - intros Huser.
    assert (Forall (resolves wp)
              (logMount :: WordpressSpec.VolumeMounts (Wordpress.Spec wp)
                 ++ codeMountsOf wp ++ mediaMountsOf wp)) as Hall.
    { apply Forall_cons in Hgen as [Hlog Hgen].
      constructor; [done|]. apply Forall_app. by split. }
    split; [rewrite volumeMounts_eq; eauto|].
    unfold installStep, installWPContainer.
    destruct (WordpressSpec.WordpressBootstrapSpec_ _); [|done].
    rewrite volumeMounts_eq. simpl. constructor; [exact Hall|constructor].
Qed.


(** X6.  The volume-preparation container is always returned, and is the
    preparation step when there are code or media mounts.  Its mounts are
    the two auxiliary volumes, then the code volume at [/mnt/code] when
    there are code mounts not marked read-only, then the media volume at
    [/mnt/media] likewise, each at the content sub-path of its source: a
    source marked read-only is not mounted, so the step still runs, on the
    auxiliary volumes alone, when every source is read-only.  All its
    mounts are read-write and name volumes of the pod, and it has no
    security context of its own. *)
Theorem X6_prepare_volumes_container wp :
  exists c,
    prepareVolumesContainer wp = Some c
    /\ prepareStep wp = (if hasMediaMounts wp || hasCodeMounts wp then [c] else [])
    /\ Container.VolumeMounts c
       = auxMounts ++ writableCodeMount wp ++ writableMediaMount wp
    /\ (forall code,
          WordpressSpec.CodeVolumeSpec_ (Wordpress.Spec wp) = Some code ->
          CodeVolumeSpec.ReadOnly code = true -> writableCodeMount wp = [])
    /\ (forall media,
          WordpressSpec.MediaVolumeSpec_ (Wordpress.Spec wp) = Some media ->
          MediaVolumeSpec.ReadOnly media = true -> writableMediaMount wp = [])
    /\ Forall (fun m => VolumeMount.ReadOnly m = false) (Container.VolumeMounts c)
    /\ Forall (resolves wp) (Container.VolumeMounts c)
    /\ Container.SecurityContext_ c = None.
Proof.
  destruct (prepareVolumesContainer_mounts wp) as (c & Hc & Hm & Hsc & _).
  exists c. split; [done|]. split; [unfold prepareStep; by rewrite Hc|].
  split; [done|]. split; [|split; [|split; [|split; [|done]]]].
  - intros code Hcode Hro. unfold writableCodeMount.
    by rewrite Hcode, Hro, andb_false_r.
  - intros media Hmedia Hro. unfold writableMediaMount.
    by rewrite Hmedia, Hro, andb_false_r.
  - rewrite Hm. unfold auxMounts, writableCodeMount, writableMediaMount.
    repeat apply Forall_app_2; repeat constructor.
    + destruct (WordpressSpec.CodeVolumeSpec_ _) as [code|]; [|done].
      destruct (_ && _); repeat constructor.
    + destruct (WordpressSpec.MediaVolumeSpec_ _) as [media|]; [|done].
      destruct (_ && _); repeat constructor.
  - rewrite Hm. apply Forall_app. split.
    + unfold auxMounts. repeat constructor; apply resolves_aux; auto.
    + apply Forall_app.
      split; [apply writableCodeMount_resolve|apply writableMediaMount_resolve].
Qed.

(** The guards [if len(x) > 0 { out.x = x }] leave the zero value of the
    field for an empty [x], which is [x] itself. *)
Lemma guard_string (s : string) :
  (if (0 <? String.length s)%nat then s else "") = s.
Proof. by destruct s. Qed.

Lemma guard_list {A : Type} (l : list A) :
  (if (0 <? length l)%nat then l else []) = l.
Proof. by destruct l. Qed.

Lemma guard_map (m : gmap string string) :
  (if (0 <? size m)%nat then m else ∅) = m.
Proof.
  destruct (0 <? size m)%nat eqn:E; [done|].
  apply Nat.ltb_ge in E. symmetry. apply map_size_empty_iff. lia.
Qed.

(** X7.  The job template is the web template but for the identity of the
    main process and the pod-level policy.  Both have the same init
    containers, volumes, sidecars after the main container, and placement
    fields, which are those of the resource; the two main containers have
    the same image, pull policy, environment, bulk references, mounts and
    security context.  The job's main container is named [wp-cli], takes
    the command as arguments, and has no ports, probes, lifecycle hooks nor
    the resources of the resource; the job pod never restarts and has the
    file-system group 33, where the web pod has neither set. *)
Theorem X7_job_template_against_web (o1 o2 o3 o4 : MapOrder) wp (cmd : list string) :
  exists tw tj mw mj,
    WebPodTemplateSpec o1 o2 wp = Some tw
    /\ JobPodTemplateSpec o3 o4 wp cmd = Some tj
    /\ PodSpec.Containers (PodTemplateSpec.Spec tw)
       = mw :: WordpressSpec.Sidecars (Wordpress.Spec wp)
    /\ PodSpec.Containers (PodTemplateSpec.Spec tj)
       = mj :: WordpressSpec.Sidecars (Wordpress.Spec wp)
    /\ PodSpec.InitContainers (PodTemplateSpec.Spec tw)
       = PodSpec.InitContainers (PodTemplateSpec.Spec tj)
    /\ PodSpec.Volumes (PodTemplateSpec.Spec tw)
       = PodSpec.Volumes (PodTemplateSpec.Spec tj)
    /\ (Container.Image mw = Container.Image mj
        /\ Container.ImagePullPolicy mw = Container.ImagePullPolicy mj
        /\ Container.Env mw = Container.Env mj
        /\ Container.EnvFrom mw = Container.EnvFrom mj
        /\ Container.VolumeMounts mw = Container.VolumeMounts mj
        /\ Container.SecurityContext_ mw = Container.SecurityContext_ mj)
    /\ (forall t, t = tw \/ t = tj ->
          PodSpec.NodeSelector (PodTemplateSpec.Spec t)
          = WordpressSpec.NodeSelector (Wordpress.Spec wp)
          /\ PodSpec.Tolerations (PodTemplateSpec.Spec t)
             = WordpressSpec.Tolerations (Wordpress.Spec wp)
          /\ PodSpec.Affinity_ (PodTemplateSpec.Spec t)
             = WordpressSpec.Affinity_ (Wordpress.Spec wp)
          /\ PodSpec.PriorityClassName (PodTemplateSpec.Spec t)
             = WordpressSpec.PriorityClassName (Wordpress.Spec wp)
          /\ PodSpec.ServiceAccountName (PodTemplateSpec.Spec t)
             = WordpressSpec.ServiceAccountName (Wordpress.Spec wp)
          /\ PodSpec.ImagePullSecrets (PodTemplateSpec.Spec t)
             = WordpressSpec.ImagePullSecrets (Wordpress.Spec wp))
    /\ (Container.Name mw = "wordpress" /\ Container.Name mj = "wp-cli"
        /\ Container.Args mw = [] /\ Container.Args mj = cmd
        /\ length (Container.Ports mw) = 2 /\ Container.Ports mj = []
        /\ Container.ReadinessProbe mj = None /\ Container.LivenessProbe mj = None
        /\ Container.Lifecycle_ mj = None
        /\ Container.Resources mw = WordpressSpec.Resources (Wordpress.Spec wp)
        /\ Container.Resources mj = ResourceRequirements.zero)
    /\ (PodSpec.RestartPolicy (PodTemplateSpec.Spec tw) = ""
        /\ PodSpec.RestartPolicy (PodTemplateSpec.Spec tj) = "Never"
        /\ PodSpec.SecurityContext_ (PodTemplateSpec.Spec tw) = None
        /\ PodSpec.SecurityContext_ (PodTemplateSpec.Spec tj)
           = Some {| PodSecurityContext.FSGroup := Some 33%Z |}).
Proof.
  unfold WebPodTemplateSpec, JobPodTemplateSpec.
  rewrite initContainers_eq, volumeMounts_eq. simpl.
  rewrite !guard_string, !guard_list, !guard_map.
  eexists _, _, _, _. split; [reflexivity|]. split; [reflexivity|].
  simpl. split; [done|]. split; [done|]. split; [done|]. split; [done|].
  split; [done|]. split; [|done].
  by intros t [->| ->].
Qed.

(** X8.  The labels of a template are the labels of the pod metadata of
    the resource overridden by the labels the operator computes: a key the
    operator sets has the operator's value whatever the caller wrote, any
    other key keeps the caller's.  The annotations are the caller's. *)
Theorem X8_template_labels (o1 o2 : MapOrder) wp (cmd : list string) :
  exists tw tj,
    WebPodTemplateSpec o1 o2 wp = Some tw
    /\ JobPodTemplateSpec o1 o2 wp cmd = Some tj
    /\ (forall k,
          ObjectMeta.Labels (PodTemplateSpec.Meta tw) !! k =
          match WebPodLabels wp !! k with
          | Some v => Some v
          | None =>
              from_option ObjectMeta.Labels ∅
                (WordpressSpec.PodMetadata (Wordpress.Spec wp)) !! k
          end)
    /\ (forall k,
          ObjectMeta.Labels (PodTemplateSpec.Meta tj) !! k =
          match JobPodLabels wp !! k with
          | Some v => Some v
          | None =>
              from_option ObjectMeta.Labels ∅
                (WordpressSpec.PodMetadata (Wordpress.Spec wp)) !! k
          end)
    /\ ObjectMeta.Annotations (PodTemplateSpec.Meta tw)
       = from_option ObjectMeta.Annotations ∅
           (WordpressSpec.PodMetadata (Wordpress.Spec wp))
    /\ ObjectMeta.Annotations (PodTemplateSpec.Meta tj)
       = from_option ObjectMeta.Annotations ∅
           (WordpressSpec.PodMetadata (Wordpress.Spec wp)).
Proof.
  unfold WebPodTemplateSpec, JobPodTemplateSpec, templateMeta.
  rewrite initContainers_eq, volumeMounts_eq, !labels_Merge_union. simpl.
  eexists _, _. split; [reflexivity|]. split; [reflexivity|]. simpl.
  split; [|split; [|split]].
  - intros k. rewrite lookup_union.
    destruct (WebPodLabels wp !! k); destruct (WordpressSpec.PodMetadata _); simpl;
      try destruct (_ !! k); done.
  - intros k. rewrite lookup_union.
    destruct (JobPodLabels wp !! k); destruct (WordpressSpec.PodMetadata _); simpl;
      try destruct (_ !! k); done.
  - by destruct (WordpressSpec.PodMetadata _).
  - by destruct (WordpressSpec.PodMetadata _).
Qed.

(** X9.  With a bootstrap the install container is returned and is the last
    init container.  It runs the image of the main process with the mounts
    and the security context of the main process; its environment and bulk
    references are those of the main process followed by those of the
    bootstrap; and the home URL it passes to [wp-install] is the value of
    the [WP_HOME] variable it starts with. *)
Theorem X9_install_container wp bootstrap :
  WordpressSpec.WordpressBootstrapSpec_ (Wordpress.Spec wp) = Some bootstrap ->
  exists i inits,
    installWPContainer wp = Some [i]
    /\ initContainers wp = Some inits
    /\ last inits = Some i
    /\ Container.Name i = "install-wp"
    /\ Container.Command i = ["wp-install"]
    /\ length (Container.Args i) = 5
    /\ Container.Args i !! 1 = Some (HomeURL wp)
    /\ Container.Env i !! 0 = Some (EnvVar.lit "WP_HOME" (HomeURL wp))
    /\ (forall o1 o2, exists t main,
          WebPodTemplateSpec o1 o2 wp = Some t
          /\ mainContainer t = Some main
          /\ Container.Image i = Container.Image main
          /\ Container.VolumeMounts i = Container.VolumeMounts main
          /\ Container.SecurityContext_ i = Container.SecurityContext_ main
          /\ Container.Env i = Container.Env main ++ WordpressBootstrapSpec.Env bootstrap
          /\ Container.EnvFrom i
             = Container.EnvFrom main ++ WordpressBootstrapSpec.EnvFrom bootstrap).
Proof.
  intros Hb.
  assert (exists i, installWPContainer wp = Some [i]
                    /\ Container.Image i = WordpressSpec.Image (Wordpress.Spec wp)
                    /\ Container.VolumeMounts i =
                       logMount :: WordpressSpec.VolumeMounts (Wordpress.Spec wp)
                         ++ codeMountsOf wp ++ mediaMountsOf wp
                    /\ Container.SecurityContext_ i = Some (securityContext wp)
                    /\ Container.Env i = env wp ++ WordpressBootstrapSpec.Env bootstrap
                    /\ Container.EnvFrom i
                       = envFrom wp ++ WordpressBootstrapSpec.EnvFrom bootstrap
                    /\ Container.Name i = "install-wp"
                    /\ Container.Command i = ["wp-install"]
                    /\ length (Container.Args i) = 5
                    /\ Container.Args i !! 1 = Some (HomeURL wp))
    as (i & Hi & Himg & Hvm & Hsc & Henv & Hef & Hn & Hcmd & Hlen & Harg).
  { unfold installWPContainer. rewrite Hb, volumeMounts_eq. simpl.
    eexists. split; [reflexivity|]. by repeat split. }
  exists i, (prepareStep wp ++ WordpressSpec.InitContainers (Wordpress.Spec wp)
               ++ gitStep wp ++ [i]).
  split; [done|]. split.
  { rewrite initContainers_eq. unfold installStep. by rewrite Hi. }
  split; [by rewrite !app_assoc, last_snoc|].
  split; [done|]. split; [done|]. split; [done|]. split; [done|].
  split; [by rewrite Henv|].
  intros o1 o2. unfold WebPodTemplateSpec.
  rewrite initContainers_eq, volumeMounts_eq. simpl.
  eexists _, _. split; [reflexivity|]. split; [reflexivity|]. simpl.
  by repeat split.
Qed.

(** The names the two tables give are media names other than the name of
    the bucket variable. *)
Lemma s3EnvVars_targets (name target : string) :
  s3EnvVars !! name = Some target ->
  target ∈ mediaEnvNames /\ target <> "STACK_MEDIA_BUCKET".
Proof.
  intros H. apply s3EnvVars_table in H.
  repeat (apply elem_of_cons in H as [H|H];
          [injection H as -> ->; split; [compute_done|done]|]).
  by apply elem_of_nil in H.
Qed.

Lemma gcsEnvVars_targets (name target : string) :
  gcsEnvVars !! name = Some target ->
  target ∈ mediaEnvNames /\ target <> "STACK_MEDIA_BUCKET".
Proof.
  intros H. apply gcsEnvVars_table in H.
  repeat (apply elem_of_cons in H as [H|H];
          [injection H as -> ->; split; [compute_done|done]|]).
  by apply elem_of_nil in H.
Qed.

Lemma backendEnv_facts (prefix : string) (table : gmap string string)
    (src : option BucketVolumeSource.t) :
  (forall name target, table !! name = Some target ->
     target ∈ mediaEnvNames /\ target <> "STACK_MEDIA_BUCKET") ->
  Forall (fun v => EnvVar.Name v ∈ mediaEnvNames) (backendEnv prefix table src)
  /\ varsNamed "STACK_MEDIA_BUCKET" (backendEnv prefix table src)
     = (if Go.notnil src then 1 else 0)
  /\ length (backendEnv prefix table src)
     <= (if Go.notnil src then 1 else 0)
        + length (from_option BucketVolumeSource.Env [] src)
  /\ (forall v, v ∈ backendEnv prefix table src ->
        EnvVar.Name v <> "STACK_MEDIA_BUCKET" ->
        exists e, e ∈ from_option BucketVolumeSource.Env [] src
                  /\ table !! EnvVar.Name e = Some (EnvVar.Name v)
                  /\ EnvVar.Value v = EnvVar.Value e
                  /\ EnvVar.ValueFrom v = EnvVar.ValueFrom e)
  /\ filter (fun v => EnvVar.Name v <> "STACK_MEDIA_BUCKET") (backendEnv prefix table src)
     = omap (fun e => (fun name => EnvVar.rename name e) <$> table !! EnvVar.Name e)
            (from_option BucketVolumeSource.Env [] src).
Proof.
  intros Htable. destruct src as [b|]; simpl;
    [|split; [constructor|]; split; [done|]; split; [done|]; split; [|done];
      intros v Hv; by apply elem_of_nil in Hv].
  set (f := fun e : EnvVar.t =>
              (fun name => EnvVar.rename name e) <$> table !! EnvVar.Name e).
  assert (Forall (fun v => EnvVar.Name v ∈ mediaEnvNames
                           /\ EnvVar.Name v <> "STACK_MEDIA_BUCKET")
                 (omap f (BucketVolumeSource.Env b))) as Hcreds.
  { apply Forall_forall. intros v Hv.
    apply list_elem_of_omap in Hv as (e & _ & Hv). unfold f in Hv.
    destruct (table !! EnvVar.Name e) as [target|] eqn:Ht; [|done].
    simpl in Hv. injection Hv as <-. simpl. by apply Htable in Ht. }
  split; [|split; [|split; [|split]]].
  - constructor; [compute_done|]. eapply Forall_impl; [exact Hcreds|]. by intros v [? _].
  - unfold varsNamed. rewrite filter_cons_True by done. simpl. f_equal.
    induction Hcreds as [|v l [_ Hv] _ IH]; [done|].
    by rewrite filter_cons_False.
  - simpl. apply le_n_S. generalize (BucketVolumeSource.Env b). intros l.
    induction l as [|e l IH]; [done|].
    change (omap f (e :: l))
      with (match f e with Some y => y :: omap f l | None => omap f l end).
    destruct (f e); simpl; lia.
  - intros v Hv Hn. apply elem_of_cons in Hv as [->|Hv]; [done|].
    apply list_elem_of_omap in Hv as (e & He & Hv). unfold f in Hv.
    destruct (table !! EnvVar.Name e) as [target|] eqn:Ht; [|done].
    simpl in Hv. injection Hv as <-. by exists e.
  - rewrite filter_cons_False by (intros H; by apply H).
    induction Hcreds as [|v l [_ Hv] _ IH]; [done|].
    rewrite filter_cons_True by done. by rewrite IH.
Qed.

(** X10.  A media-derived variable has one of seven names: the bucket
    variable's or one the two tables give.  There are as many bucket
    variables as backend descriptors set.  The other variables are, in
    order, the credentials of the S3 backend whose name is a key of the S3
    table and then those of the GCS backend whose name is a key of the GCS
    table, each under the name the table of its own backend gives it and
    with its value and value source as the caller wrote them; a credential
    whose name is a key of the other backend's table only is dropped.  So
    the environment is no longer than the descriptors and their credentials
    together. *)
Theorem X10_media_env_names wp media :
  WordpressSpec.MediaVolumeSpec_ (Wordpress.Spec wp) = Some media ->
  Forall (fun v => EnvVar.Name v ∈ mediaEnvNames) (mediaEnv wp)
  /\ varsNamed "STACK_MEDIA_BUCKET" (mediaEnv wp)
     = (if Go.notnil (MediaVolumeSpec.S3VolumeSource media) then 1 else 0)
       + (if Go.notnil (MediaVolumeSpec.GCSVolumeSource media) then 1 else 0)
  /\ length (mediaEnv wp)
     <= (if Go.notnil (MediaVolumeSpec.S3VolumeSource media) then 1 else 0)
        + (if Go.notnil (MediaVolumeSpec.GCSVolumeSource media) then 1 else 0)
        + length (backendCredentials media)
  /\ (forall v, v ∈ mediaEnv wp ->
        EnvVar.Name v <> "STACK_MEDIA_BUCKET" ->
        (exists s3 e,
           MediaVolumeSpec.S3VolumeSource media = Some s3
           /\ e ∈ BucketVolumeSource.Env s3
           /\ s3EnvVars !! EnvVar.Name e = Some (EnvVar.Name v)
           /\ EnvVar.Value v = EnvVar.Value e
           /\ EnvVar.ValueFrom v = EnvVar.ValueFrom e)
        \/ (exists gcs e,
              MediaVolumeSpec.GCSVolumeSource media = Some gcs
              /\ e ∈ BucketVolumeSource.Env gcs
              /\ gcsEnvVars !! EnvVar.Name e = Some (EnvVar.Name v)
              /\ EnvVar.Value v = EnvVar.Value e
              /\ EnvVar.ValueFrom v = EnvVar.ValueFrom e))
  /\ filter (fun v => EnvVar.Name v <> "STACK_MEDIA_BUCKET") (mediaEnv wp)
     = omap (fun e => (fun name => EnvVar.rename name e) <$> s3EnvVars !! EnvVar.Name e)
            (from_option BucketVolumeSource.Env [] (MediaVolumeSpec.S3VolumeSource media))
       ++ omap (fun e => (fun name => EnvVar.rename name e) <$> gcsEnvVars !! EnvVar.Name e)
               (from_option BucketVolumeSource.Env []
                  (MediaVolumeSpec.GCSVolumeSource media)).
Proof.
  intros Hmedia. rewrite mediaEnv_segments, Hmedia.
  destruct (backendEnv_facts s3Prefix s3EnvVars
              (MediaVolumeSpec.S3VolumeSource media) s3EnvVars_targets)
    as (Hn1 & Hb1 & Hl1 & Hc1 & Hf1).
  destruct (backendEnv_facts gcsPrefix gcsEnvVars
              (MediaVolumeSpec.GCSVolumeSource media) gcsEnvVars_targets)
    as (Hn2 & Hb2 & Hl2 & Hc2 & Hf2).
  split; [by apply Forall_app|]. split; [|split; [|split]].
  - unfold varsNamed in *. by rewrite filter_app, length_app, Hb1, Hb2.
  - unfold backendCredentials. rewrite !length_app. lia.
  - intros v Hv Hn. apply elem_of_app in Hv as [Hv|Hv].
    + destruct (Hc1 v Hv Hn) as (e & He & Ht & Hval & Hvf).
      destruct (MediaVolumeSpec.S3VolumeSource media) as [s3|];
        [|by apply elem_of_nil in He].
      left. by exists s3, e.
    + destruct (Hc2 v Hv Hn) as (e & He & Ht & Hval & Hvf).
      destruct (MediaVolumeSpec.GCSVolumeSource media) as [gcs|];
        [|by apply elem_of_nil in He].
      right. by exists gcs, e.
  - by rewrite filter_app, Hf1, Hf2.
Qed.

(** X11.  The two axes of the media source do not touch each other: there
    are media-derived variables exactly when a backend descriptor is set,
    whatever the mount sources, and media mounts exactly when a mount
    source is set, whatever the backend descriptors. *)
Theorem X11_media_axes wp :
  (mediaEnv wp <> [] <->
   exists media,
     WordpressSpec.MediaVolumeSpec_ (Wordpress.Spec wp) = Some media
     /\ (MediaVolumeSpec.S3VolumeSource media <> None
         \/ MediaVolumeSpec.GCSVolumeSource media <> None))
  /\ (hasMediaMounts wp = true <->
      exists media,
        WordpressSpec.MediaVolumeSpec_ (Wordpress.Spec wp) = Some media
        /\ (MediaVolumeSpec.PersistentVolumeClaim media <> None
            \/ MediaVolumeSpec.HostPath media <> None
            \/ MediaVolumeSpec.EmptyDir media <> None)).
Proof.
  split.
  - rewrite mediaEnv_segments.
    destruct (WordpressSpec.MediaVolumeSpec_ _) as [media|];
      [|split; [done|by intros (m & ? & _)]].
    split.
    + intros H. exists media. split; [done|].
      destruct (MediaVolumeSpec.S3VolumeSource media); [by left|].
      destruct (MediaVolumeSpec.GCSVolumeSource media); [by right|done].
    + intros (m & [= <-] & Hor).
      destruct (MediaVolumeSpec.S3VolumeSource media); [done|].
      destruct (MediaVolumeSpec.GCSVolumeSource media); [done|].
      by destruct Hor.
  - unfold hasMediaMounts.
    destruct (WordpressSpec.MediaVolumeSpec_ _) as [media|];
      [|split; [done|by intros (m & ? & _)]].
    split.
    + intros H. exists media. split; [done|].
      destruct (MediaVolumeSpec.PersistentVolumeClaim media); [by left|].
      destruct (MediaVolumeSpec.HostPath media); [by right; left|].
      destruct (MediaVolumeSpec.EmptyDir media); [by right; right|done].
    + intros (m & [= <-] & Hor).
      destruct (MediaVolumeSpec.PersistentVolumeClaim media); [done|].
      destruct (MediaVolumeSpec.HostPath media); [done|].
      destruct (MediaVolumeSpec.EmptyDir media); [done|].
      by destruct Hor as [?|[?|?]].
Qed.

(** X12.  With no probe of the caller, the readiness and the liveness
    probes of the web main container are HTTP checks of one and the same
    port, which is the container port named [http]. *)
Theorem X12_default_probes_port (o1 o2 : MapOrder) wp :
  WordpressSpec.ReadinessProbe (Wordpress.Spec wp) = None ->
  WordpressSpec.LivenessProbe (Wordpress.Spec wp) = None ->
  exists t main r l gr gl p,
    WebPodTemplateSpec o1 o2 wp = Some t
    /\ mainContainer t = Some main
    /\ Container.ReadinessProbe main = Some r
    /\ Container.LivenessProbe main = Some l
    /\ Handler.HTTPGet (Probe.Handler_ r) = Some gr
    /\ Handler.HTTPGet (Probe.Handler_ l) = Some gl
    /\ p ∈ Container.Ports main
    /\ ContainerPort.Name p = "http"
    /\ HTTPGetAction.Port gr = IntVal (ContainerPort.ContainerPort_ p)
    /\ HTTPGetAction.Port gl = IntVal (ContainerPort.ContainerPort_ p).
Proof.
  intros Hr Hl. unfold WebPodTemplateSpec, readinessProbe, livenessProbe.
  rewrite initContainers_eq, volumeMounts_eq, Hr, Hl. simpl.
  eexists _, _, _, _, _, _, _. split; [reflexivity|]. split; [reflexivity|]. simpl.
  split; [reflexivity|]. split; [reflexivity|]. simpl.
  split; [reflexivity|]. split; [reflexivity|].
  split; [apply list_elem_of_here|]. done.
Qed.

(** X13.  With media mounts the last mount of the main process is the one
    media mount the compiler generates: the media volume at the path of the
    media source, read-only as the source is marked, at the content
    sub-path of the source, empty or not (the test of the sub-path in
    [volumeMounts] changes nothing).  It names a volume of the pod. *)
Theorem X13_media_mount wp media :
  WordpressSpec.MediaVolumeSpec_ (Wordpress.Spec wp) = Some media ->
  hasMediaMounts wp = true ->
  exists ms m,
    volumeMounts wp = Some ms
    /\ last ms = Some m
    /\ m = {| VolumeMount.Name := "media";
              VolumeMount.ReadOnly := MediaVolumeSpec.ReadOnly media;
              VolumeMount.MountPath := MediaVolumeSpec.MountPath media;
              VolumeMount.SubPath := MediaVolumeSpec.ContentSubPath media |}
    /\ mediaMountsOf wp = [m]
    /\ resolves wp m.
Proof.
  intros Hmedia Hm.
  assert (mediaMountsOf wp = [mediaMount media]) as Hmm.
  { unfold mediaMountsOf. by rewrite Hmedia, Hm. }
  eexists _, (mediaMount media). split; [apply volumeMounts_eq|].
  split.
  { rewrite Hmm, app_comm_cons, !app_assoc. apply last_snoc. }
  split; [done|]. split; [done|]. by apply resolves_media.
Qed.

End MoreProperties.

(** ** The further properties on the sample resources *)

Example fullSite_init_containers :
  fmap (M := option) (fmap (M := list) Container.Name)
    (initContainers MoreSamples.fullSite)
  = Some ["prepare-volumes"; "git"; "install-wp"].
Proof. vm_compute. reflexivity. Qed.

(** The media source of this resource is read-only: the preparation
    container mounts the auxiliary volumes and the code volume only. *)
Example fullSite_prepare_mounts :
  fmap (M := option)
    (fun c => fmap (M := list) VolumeMount.Name (Container.VolumeMounts c))
    (prepareVolumesContainer MoreSamples.fullSite)
  = Some ["knative-internal"; "knative-var-log"; "code"].
Proof. vm_compute. reflexivity. Qed.

(** A mount of the caller that names no volume is copied as it is. *)
Example danglingMountSite_mount :
  (exists ms m, volumeMounts MoreSamples.danglingMountSite = Some ms
                /\ ms !! 1 = Some m /\ VolumeMount.Name m = "nowhere")
  /\ ~ Forall (resolves MoreSamples.danglingMountSite)
         (WordpressSpec.VolumeMounts (Wordpress.Spec MoreSamples.danglingMountSite)).
Proof.
  split; [eexists _, _; split; [reflexivity|]; split; reflexivity|].
  intros H. apply Forall_cons in H as [(v & Hv & Hn) _].
  change (volumes MoreSamples.danglingMountSite)
    with (auxVolumes ++ [codeVolume MoreSamples.danglingMountSite;
                         mediaVolume MoreSamples.danglingMountSite]) in Hv.
  unfold auxVolumes in Hv. simpl in Hv.
  rewrite !elem_of_cons, elem_of_nil in Hv.
  destruct Hv as [->|[->|[->|[->|[]]]]]; discriminate Hn.
Qed.

Example labelledSite_labels :
  fmap (M := option) (fun t => ObjectMeta.Labels (PodTemplateSpec.Meta t))
    (WebPodTemplateSpec Sample.forwards Sample.backwards MoreSamples.labelledSite)
  = Some {[ "app.kubernetes.io/component" := "web"; "team" := "blog" ]}.
Proof. vm_compute. reflexivity. Qed.

Example noRefSite_git_env :
  fmap (M := option) (fmap (M := list) EnvVar.Name) (gitCloneEnv MoreSamples.noRefSite)
  = Some ["GIT_CLONE_URL"; "SRC_DIR"; "SSH_RSA_PRIVATE_KEY"].
Proof. vm_compute. reflexivity. Qed.

Example bareSite_gitClone_panics :
  gitCloneEnv Sample.bareSite = None /\ gitCloneContainer Sample.bareSite = None
  /\ is_Some (initContainers Sample.bareSite).
Proof. repeat split; vm_compute; eauto. Qed.

(** C5, as stated, fails on the resource with the routes
    [(example.com, /)] and [(example.org, /blog)]: [STACK_ROUTES] is not the
    comma-joined list of the texts [domain/path].  On the route
    [(shop.example.com, ../admin.example.com)] it is another domain
    altogether. *)
Lemma C5_counterexample :
  WordpressSpec.Routes (Wordpress.Spec Sample.routedSite) <> []
  /\ env Sample.routedSite !! 3
     = Some (EnvVar.lit "STACK_ROUTES" "example.com,example.org/blog")
  /\ String.concat ","
       (map literalRoute (WordpressSpec.Routes (Wordpress.Spec Sample.routedSite)))
     = "example.com//,example.org//blog"
  /\ env Sample.routedSite !! 3
     <> Some (EnvVar.lit "STACK_ROUTES"
                (String.concat ","
                   (map literalRoute
                      (WordpressSpec.Routes (Wordpress.Spec Sample.routedSite)))))
  /\ env MoreSamples.traversalSite !! 3
     = Some (EnvVar.lit "STACK_ROUTES" "admin.example.com")
  /\ env MoreSamples.traversalSite !! 3
     <> Some (EnvVar.lit "STACK_ROUTES"
                (String.concat ","
                   (map literalRoute
                      (WordpressSpec.Routes (Wordpress.Spec MoreSamples.traversalSite))))).
Proof.
  split; [discriminate|]. split; [vm_compute; reflexivity|].
  split; [vm_compute; reflexivity|]. split; [vm_compute; discriminate|].
  split; [vm_compute; reflexivity|]. vm_compute. discriminate.
Qed.

(** The GCS credential named [ENDPOINT], a key of the S3 table only, is
    dropped. *)
Example bothBackendsSite_other_credentials :
  filter (fun v => EnvVar.Name v <> "STACK_MEDIA_BUCKET")
         (mediaEnv Sample.bothBackendsSite)
  = [ EnvVar.lit "AWS_ACCESS_KEY_ID" "k";
      EnvVar.lit "S3_ENDPOINT" "e";
      EnvVar.lit "GOOGLE_CREDENTIALS" "k" ].
Proof. vm_compute. reflexivity. Qed.

Lemma X1_witness :
  routes Sample.routedSite = ["example.com"; "example.org/blog"].
Proof.
  destruct (X1_routes_of_simple_routes Sample.routedSite
              ltac:(discriminate) ltac:(repeat constructor)) as [H _].
  rewrite H. reflexivity.
Defined.

Lemma X3_witness :
  exists g, gitCloneContainer MoreSamples.noRefSite = Some g
            /\ fmap (M := list) EnvVar.Name (Container.Env g)
               = ["GIT_CLONE_URL"; "SRC_DIR"; "SSH_RSA_PRIVATE_KEY"].
Proof.
  destruct (X3_git_container MoreSamples.noRefSite MoreSamples.noRefCode _
              eq_refl eq_refl) as (g & first & Hg & _ & _ & Henv & _).
  exists g. split; [exact Hg|]. rewrite Henv. reflexivity.
Defined.


Lemma X9_witness :
  exists i, installWPContainer MoreSamples.fullSite = Some [i]
            /\ Container.Args i !! 1 = Some "http://site".
Proof.
  destruct (X9_install_container MoreSamples.fullSite Sample.bootstrap eq_refl)
    as (i & inits & Hi & _ & _ & _ & _ & _ & Harg & _).
  exists i. split; [exact Hi|exact Harg].
Defined.

Lemma X10_witness :
  varsNamed "STACK_MEDIA_BUCKET" (mediaEnv Sample.bothBackendsSite) = 2
  /\ length (mediaEnv Sample.bothBackendsSite) <= 8.
Proof.
  destruct (X10_media_env_names Sample.bothBackendsSite
              (Sample.mediaOf (Some Sample.s3Bucket) (Some Sample.gcsBucket) None)
              eq_refl) as (_ & Hb & Hl & _).
  split; [exact Hb|exact Hl].
Defined.

Lemma X12_witness :
  exists t main r gr,
    WebPodTemplateSpec Sample.forwards Sample.forwards Sample.bareSite = Some t
    /\ mainContainer t = Some main
    /\ Container.ReadinessProbe main = Some r
    /\ Handler.HTTPGet (Probe.Handler_ r) = Some gr
    /\ exists p, p ∈ Container.Ports main
                 /\ HTTPGetAction.Port gr = IntVal (ContainerPort.ContainerPort_ p).
Proof.
  destruct (X12_default_probes_port Sample.forwards Sample.forwards Sample.bareSite
              eq_refl eq_refl)
    as (t & main & r & l & gr & gl & p & Ht & Hm & Hr & _ & Hgr & _ & Hp & _ & Hport & _).
  exists t, main, r, gr. repeat split; try assumption. exists p. by split.
Defined.

Lemma X13_witness :
  exists ms m,
    volumeMounts MoreSamples.fullSite = Some ms
    /\ last ms = Some m
    /\ VolumeMount.SubPath m = "uploads"
    /\ VolumeMount.ReadOnly m = true.
Proof.
  destruct (X13_media_mount MoreSamples.fullSite MoreSamples.claimMedia
              eq_refl eq_refl) as (ms & m & Hms & Hlast & -> & _).
  eexists ms, _. split; [exact Hms|]. split; [exact Hlast|]. split; reflexivity.
Defined.
